(** * WsGateway: the session registry and message router of
    [s3_extend/gateways/ws_gateway.py]

    A shallow embedding of the WebSocket gateway.  Python strings are
    [string]s, dictionaries are association lists in insertion order,
    exceptions are values of [exn], and the coroutines of the class are
    functions in a state-and-exception monad over the gateway's state
    (the [active_sockets] table, the status of every connection and the
    trace of calls made to the websocket and Banyan layers).

    Each coroutine is run without another task being scheduled at its
    [await] points. *)

From Stdlib Require Import ZArith List Bool Ascii String DecimalString Lia.
From Stdlib Require Import Floats.SpecFloat.
Import ListNotations.

Local Open Scope string_scope.
Local Open Scope Z_scope.

(** ** Python strings *)

Module PyStr.

(** [s.startswith(p)] *)
Fixpoint startswith (p s : string) : bool :=
  match p, s with
  | EmptyString, _ => true
  | String _ _, EmptyString => false
  | String a p', String b s' => Ascii.eqb a b && startswith p' s'
  end.

(** [p in s] *)
Fixpoint contains (p s : string) : bool :=
  startswith p s ||
  match s with
  | EmptyString => false
  | String _ rest => contains p rest
  end.

(** [s[n:]] *)
Fixpoint drop (n : nat) (s : string) : string :=
  match n, s with
  | O, _ => s
  | S _, EmptyString => EmptyString
  | S k, String _ rest => drop k rest
  end.

(** The scan of [str.replace] for a non-empty [old]: occurrences are
    found from left to right and do not overlap; [skip] counts the
    characters of the occurrence just replaced that are still to be
    passed over. *)
Fixpoint replace_scan (old new : string) (skip : nat) (s : string) : string :=
  match s with
  | EmptyString => EmptyString
  | String c rest =>
      match skip with
      | S k => replace_scan old new k rest
      | O =>
          if startswith old s
          then new ++ replace_scan old new (Nat.pred (String.length old)) rest
          else String c (replace_scan old new O rest)
      end
  end.

(** With an empty [old], [str.replace] puts [new] before every
    character and at the end. *)
Fixpoint interleave (new s : string) : string :=
  match s with
  | EmptyString => new
  | String c rest => new ++ String c (interleave new rest)
  end.

(** [s.replace(old, new)], no count given: every occurrence. *)
Definition replace (old new s : string) : string :=
  match old with
  | EmptyString => interleave new s
  | String _ _ => replace_scan old new O s
  end.

(** Modelled on the words of the specification, for comparison with
    [replace]: only the first occurrence of [old] is replaced, the
    rest of the string is kept as it is. *)
Fixpoint replace_first (old new s : string) : string :=
  if startswith old s
  then new ++ drop (String.length old) s
  else match s with
       | EmptyString => EmptyString
       | String c rest => String c (replace_first old new rest)
       end.

End PyStr.

(** ** Topic Deriver

    [subscriber_string = id_string.replace('to', 'from')] *)
Definition subscriber_string (id_string : string) : string :=
  PyStr.replace "to" "from" id_string.


(** ** Python values and exceptions *)

(** The exception classes that the gateway's code can meet. *)
Inductive exn : Type :=
| ConnectionClosedOK      (* websockets.exceptions, subclass of ConnectionClosed *)
| ConnectionClosedError   (* websockets.exceptions, subclass of ConnectionClosed *)
| TypeError
| KeyError
| AttributeError
| UnboundLocalError
| JSONDecodeError         (* json, subclass of ValueError *)
| UnicodeDecodeError      (* subclass of ValueError *)
| OverflowError           (* msgpack, on an integer beyond 64 bits *)
| RangeError.             (* ValueError, OverflowError or OSError of
                             datetime.fromtimestamp, by magnitude and platform *)

(** [isinstance(e, websockets.exceptions.ConnectionClosed)] *)
Definition is_ConnectionClosed (e : exn) : bool :=
  match e with
  | ConnectionClosedOK | ConnectionClosedError => true
  | _ => false
  end.

Definition is_ConnectionClosedOK (e : exn) : bool :=
  match e with ConnectionClosedOK => true | _ => false end.

Definition is_KeyError (e : exn) : bool :=
  match e with KeyError => true | _ => false end.

(** The value of an expression: a value or a raised exception. *)
Inductive result (A : Type) : Type :=
| Ok (a : A)
| Err (e : exn).
Arguments Ok {A} a.
Arguments Err {A} e.

(** Values of the [json] module; a float is an IEEE 754 double. *)
#[local] Set Warnings "-register-all".
Inductive json : Type :=
| JNull
| JBool (b : bool)
| JInt (z : Z)
| JFloat (f : spec_float)
| JStr (s : string)
| JList (l : list json)
| JObj (o : list (string * json)).

(** [v == s] for a string [s] *)
Definition json_eq_str (v : json) (s : string) : bool :=
  match v with
  | JStr s' => String.eqb s' s
  | _ => false
  end.

(** ** Dictionaries, in insertion order *)

Module Dict.
Section Ops.
Context {K V : Type} (eqb : K -> K -> bool).

(** [d.get(k)] *)
Fixpoint get (k : K) (d : list (K * V)) : option V :=
  match d with
  | [] => None
  | (k', v) :: rest => if eqb k k' then Some v else get k rest
  end.

(** [k in d] *)
Definition mem (k : K) (d : list (K * V)) : bool :=
  match get k d with
  | Some _ => true
  | None => false
  end.

(** [d[k]] *)
Definition getitem (k : K) (d : list (K * V)) : result V :=
  match get k d with
  | Some v => Ok v
  | None => Err KeyError
  end.

(** [d[k] = v]: an existing key keeps its place, a new key goes last. *)
Fixpoint set (k : K) (v : V) (d : list (K * V)) : list (K * V) :=
  match d with
  | [] => [(k, v)]
  | (k', v') :: rest =>
      if eqb k k' then (k', v) :: rest else (k', v') :: set k v rest
  end.

Definition keys (d : list (K * V)) : list K := map fst d.
End Ops.
End Dict.

(** A payload: a dictionary with string keys. *)
Definition dict : Type := list (string * json).

(** [data[k]] on a parsed value: only a dictionary can be indexed by a
    string. *)
Definition json_getitem (data : json) (k : string) : result json :=
  match data with
  | JObj d => Dict.getitem String.eqb k d
  | _ => Err TypeError
  end.

(** ** The session table *)

(** A websocket connection object, known by its identity. *)
Definition conn : Type := nat.

(** Keys and values of an entry of [active_sockets]: a connection object
    or a string. *)
Inductive key : Type :=
| KSock (websocket : conn)
| KStr (s : string).

Inductive val : Type :=
| VStr (s : string)
| VSock (websocket : conn).

Definition key_eqb (a b : key) : bool :=
  match a, b with
  | KSock x, KSock y => Nat.eqb x y
  | KStr x, KStr y => String.eqb x y
  | _, _ => false
  end.

Definition entry : Type := list (key * val).

(** [{websocket: 'to_banyan_topic', subscriber_string: websocket}] *)
Definition make_entry (websocket : conn) (subscriber : string) : entry :=
  [(KSock websocket, VStr "to_banyan_topic"); (KStr subscriber, VSock websocket)].

(** The table that holds one entry per session [(connection, subscribe topic)]. *)
Definition table_of (sessions : list (conn * string)) : list entry :=
  map (fun s => make_entry (fst s) (snd s)) sessions.

(** ** The gateway's state *)

Inductive close_kind : Type := CloseOK | CloseError.

Definition closed_exn (k : close_kind) : exn :=
  match k with
  | CloseOK => ConnectionClosedOK
  | CloseError => ConnectionClosedError
  end.

(** A frame of a websocket connection. *)
Inductive frame : Type :=
| Text (s : string)
| Binary (b : list Byte.byte).

(** What a connection holds for the next calls of [recv()], in order. *)
Inductive recv_event : Type :=
| RecvFrame (f : frame)
| RecvClosed (k : close_kind).

(** Calls made to the websocket and Banyan layers. *)
Inductive event : Type :=
| EvBegin
| EvSubscribe (topic : string)
| EvPublish (topic : string) (payload : json)
| EvClose (websocket : conn)
| EvSend (websocket : conn) (data : string)
| EvPrint (text : string).

Record state : Type := mkState {
  active_sockets : list entry;
  wsocket : option conn;
  closed : list (conn * close_kind);
  trace : list event
}.

Definition closed_kind (websocket : conn) (st : state) : option close_kind :=
  Dict.get Nat.eqb websocket (closed st).

Definition is_open (websocket : conn) (st : state) : bool :=
  match closed_kind websocket st with
  | Some _ => false
  | None => true
  end.

Definition with_active_sockets (l : list entry) (st : state) : state :=
  mkState l (wsocket st) (closed st) (trace st).

Definition with_wsocket (w : option conn) (st : state) : state :=
  mkState (active_sockets st) w (closed st) (trace st).

Definition with_closed (websocket : conn) (k : close_kind) (st : state) : state :=
  mkState (active_sockets st) (wsocket st)
          (match closed_kind websocket st with
           | Some _ => closed st
           | None => closed st ++ [(websocket, k)]
           end)
          (trace st).

Definition emit (ev : event) (st : state) : state :=
  mkState (active_sockets st) (wsocket st) (closed st) (trace st ++ [ev]).

(** ** Coroutines: state, exceptions, and tasks that wait for ever *)

Inductive outcome (A : Type) : Type :=
| Ret (a : A)
| Raise (e : exn)
| Pending.       (* suspended on an await that never completes *)
Arguments Ret {A} a.
Arguments Raise {A} e.
Arguments Pending {A}.

Definition M (A : Type) : Type := state -> outcome A * state.

Definition ret {A} (a : A) : M A := fun st => (Ret a, st).

Definition raise {A} (e : exn) : M A := fun st => (Raise e, st).

Definition bind {A B} (m : M A) (f : A -> M B) : M B :=
  fun st =>
    match m st with
    | (Ret a, st') => f a st'
    | (Raise e, st') => (Raise e, st')
    | (Pending, st') => (Pending, st')
    end.

Declare Scope gw_scope.
Delimit Scope gw_scope with gw.
Notation "x <- m ;; k" := (bind m (fun x => k))
  (at level 61, m at next level, right associativity) : gw_scope.
Notation "' pat <- m ;; k" := (bind m (fun x => match x with pat => k end))
  (at level 61, pat pattern, m at next level, right associativity) : gw_scope.
Notation "m ;; k" := (bind m (fun _ => k))
  (at level 61, right associativity) : gw_scope.
Local Open Scope gw_scope.

Definition lift {A} (r : result A) : M A :=
  match r with
  | Ok a => ret a
  | Err e => raise e
  end.

Definition gets {A} (f : state -> A) : M A := fun st => (Ret (f st), st).

Definition modify (f : state -> state) : M unit := fun st => (Ret tt, f st).

(** [try: m  except <handles>: h] *)
Definition try_except {A} (m : M A) (handles : exn -> bool) (h : exn -> M A) : M A :=
  fun st =>
    match m st with
    | (Raise e, st') => if handles e then h e st' else (Raise e, st')
    | r => r
    end.

(** [for x in l: body(x)] *)
Fixpoint for_each {A} (body : A -> M unit) (l : list A) : M unit :=
  match l with
  | [] => ret tt
  | x :: rest => body x ;; for_each body rest
  end.

(** ** The calendar of [datetime]

    The wall-clock time of [strftime('%Y-%m-%d %H:%M:%S')] for a whole
    number of seconds of the local calendar, as CPython writes it on a
    POSIX platform. *)

Module Calendar.

(** Year, month and day of the proleptic Gregorian calendar for a
    number of days since 1970-01-01. *)
Definition civil_from_days (days : Z) : Z * Z * Z :=
  let z := days + 719468 in
  let era := z / 146097 in
  let doe := z mod 146097 in
  let yoe := (doe - doe / 1460 + doe / 36524 - doe / 146096) / 365 in
  let doy := doe - (365 * yoe + yoe / 4 - yoe / 100) in
  let mp := (5 * doy + 2) / 153 in
  let d := doy - (153 * mp + 2) / 5 + 1 in
  let m := if mp <? 10 then mp + 3 else mp - 9 in
  let y := yoe + era * 400 + (if m <=? 2 then 1 else 0) in
  (y, m, d).

Definition digit (d : Z) : ascii := ascii_of_nat (48 + Z.to_nat d).

(** [%m], [%d], [%H], [%M], [%S]: two digits *)
Definition pad2 (n : Z) : string :=
  String (digit (n / 10)) (String (digit (n mod 10)) EmptyString).

(** Four digits, for a year from 1000 on. *)
Definition pad4 (n : Z) : string :=
  String (digit (n / 1000))
    (String (digit (n / 100 mod 10))
       (String (digit (n / 10 mod 10))
          (String (digit (n mod 10)) EmptyString))).

(** [datetime.MINYEAR] and [datetime.MAXYEAR] *)
Definition MINYEAR : Z := 1.
Definition MAXYEAR : Z := 9999.

(** [%Y] as the C library writes it: the year in decimal, with no
    padding; a year of a [datetime] is between [MINYEAR] and [MAXYEAR]. *)
Definition year_text (y : Z) : string :=
  if y <? 10 then String (digit y) EmptyString
  else if y <? 100 then pad2 y
  else if y <? 1000 then String (digit (y / 100)) (pad2 (y mod 100))
  else pad4 y.

(** The year of the local calendar [local] seconds after
    1970-01-01 00:00:00, and whether a [datetime] can hold it. *)
Definition year (local : Z) : Z :=
  let '(y, _, _) := civil_from_days (local / 86400) in y.

Definition valid (local : Z) : bool :=
  (MINYEAR <=? year local) && (year local <=? MAXYEAR).

(** The formatted wall-clock time [local] seconds after
    1970-01-01 00:00:00 of the local calendar. *)
Definition strftime (local : Z) : string :=
  let days := local / 86400 in
  let secs := local mod 86400 in
  let '(y, m, d) := civil_from_days days in
  year_text y ++ "-" ++ pad2 m ++ "-" ++ pad2 d ++ " " ++
  pad2 (secs / 3600) ++ ":" ++ pad2 (secs mod 3600 / 60) ++ ":" ++
  pad2 (secs mod 60).

(** The digits of [%Y] for a year, as a pattern of [has_shape]. *)
Definition year_pattern (y : Z) : string :=
  if y <? 10 then "d"
  else if y <? 100 then "dd"
  else if y <? 1000 then "ddd"
  else "dddd".

Definition is_digit (c : ascii) : bool :=
  let n := nat_of_ascii c in (48 <=? n)%nat && (n <=? 57)%nat.

(** A shape such as [dddd-dd-dd dd:dd:dd], one pattern character for
    each character of the text: [d] stands for a digit, any other pattern
    character for itself. *)
Fixpoint has_shape (pattern s : string) : bool :=
  match pattern, s with
  | EmptyString, EmptyString => true
  | String p pattern', String c s' =>
      (if Ascii.eqb p "d" then is_digit c else Ascii.eqb p c) &&
      has_shape pattern' s'
  | _, _ => false
  end.

End Calendar.

(** ** The libraries around the gateway *)

Class Library : Type := {
  (** [json.loads] on a received frame *)
  json_loads : frame -> result json;
  (** [json.dumps] *)
  json_dumps : json -> string;
  (** the whole seconds that [datetime.fromtimestamp] takes from a float *)
  float_seconds : spec_float -> result Z;
  (** the offset of local time from UTC, in seconds, at an instant *)
  utcoffset : Z -> Z;
  (** the exception, if any, that [publish_payload] of the base class
      raises on a payload: msgpack does not pack every value that
      [json.loads] returns (an integer beyond 64 bits, say) *)
  publish_error : json -> option exn
}.

Section Gateway.

Context {lib : Library}.

(** [datetime.datetime.fromtimestamp(v).strftime('%Y-%m-%d %H:%M:%S')]:
    [v] must be a number ([bool] is a subclass of [int]). *)
Definition epoch_seconds (v : json) : result Z :=
  match v with
  | JInt z => Ok z
  | JBool b => Ok (if b then 1 else 0)
  | JFloat f => float_seconds f
  | JNull | JStr _ | JList _ | JObj _ => Err TypeError
  end.

(** [datetime.datetime.fromtimestamp(t)] for whole seconds [t]: the
    local time of [t], which must be a valid [datetime]; so must be the
    local time a day earlier, probed to detect a fold, and, when the
    offset went down in between, the local time of the second probe. *)
Definition max_fold_seconds : Z := 24 * 3600.

Definition fromtimestamp (t : Z) : result Z :=
  let local := fun u => u + utcoffset u in
  if Calendar.valid (local t) then
    if Calendar.valid (local (t - max_fold_seconds)) then
      let transition := local t - local (t - max_fold_seconds) - max_fold_seconds in
      if (transition <? 0) && negb (Calendar.valid (local (t + transition)))
      then Err RangeError
      else Ok (local t)
    else Err RangeError
  else Err RangeError.

Definition fromtimestamp_strftime (v : json) : result string :=
  match epoch_seconds v with
  | Ok t =>
      match fromtimestamp t with
      | Ok local => Ok (Calendar.strftime local)
      | Err e => Err e
      end
  | Err e => Err e
  end.

(** *** Calls to the websocket and Banyan layers *)

(** [await self.begin()], of the base class: one event of the trace;
    the calls that the base class makes inside it are not part of the
    trace. *)
Definition begin : M unit := modify (emit EvBegin).

(** [await self.set_subscriber_topic(topic)] *)
Definition set_subscriber_topic (topic : string) : M unit :=
  modify (emit (EvSubscribe topic)).

(** [await self.publish_payload(payload, topic)]: the payload goes to
    the bus unless the base class raises on it. *)
Definition publish_payload (payload : json) (topic : string) : M unit :=
  match publish_error payload with
  | Some e => raise e
  | None => modify (emit (EvPublish topic payload))
  end.

(** [print(text)] *)
Definition print (text : string) : M unit := modify (emit (EvPrint text)).

(** [await websocket.recv()]: the next frame that the connection
    holds; [ConnectionClosed] when the peer has closed it, or when it
    holds no frame and has been closed; with no frame on an open
    connection the task waits. *)
Definition recv (websocket : conn) (inputs : list recv_event)
  : M (frame * list recv_event) :=
  fun st =>
    match inputs with
    | RecvFrame f :: rest => (Ret (f, rest), st)
    | RecvClosed k :: _ =>
        (Raise (closed_exn k), with_closed websocket k st)
    | [] =>
        match closed_kind websocket st with
        | Some k => (Raise (closed_exn k), st)
        | None => (Pending, st)
        end
    end.

(** [await websocket.close()]: closes an open connection, does nothing
    to a closed one. *)
Definition close (websocket : conn) : M unit :=
  modify (fun st => with_closed websocket CloseOK (emit (EvClose websocket) st)).

(** [await websocket.send(data)]: [ConnectionClosed] on a closed
    connection. *)
Definition send (websocket : conn) (data : string) : M unit :=
  fun st =>
    match closed_kind websocket st with
    | Some k => (Raise (closed_exn k), st)
    | None => (Ret tt, emit (EvSend websocket data) st)
    end.

(** [pub_socket.close()] and [pub_socket.send(ws_data)] on a value
    taken from an entry: a string has neither method. *)
Definition val_close (pub_socket : val) : M unit :=
  match pub_socket with
  | VSock websocket => close websocket
  | VStr _ => raise AttributeError
  end.

Definition val_send (pub_socket : val) (data : string) : M unit :=
  match pub_socket with
  | VSock websocket => send websocket data
  | VStr _ => raise AttributeError
  end.

(** *** Connection Handshake Handler: [wsg], up to the entry's insertion *)

Definition handshake (websocket : conn) (inputs : list recv_event)
  : M (string * list recv_event) :=
  modify (with_wsocket (Some websocket)) ;;
  begin ;;
  (* try: data = await websocket.recv()
     except websockets.exceptions.ConnectionClosedOK: pass *)
  data <- try_except (x <- recv websocket inputs ;; ret (Some x))
                     is_ConnectionClosedOK
                     (fun _ => ret None) ;;
  match data with
  | None =>
      (* data = json.loads(data), the name [data] never bound *)
      raise UnboundLocalError
  | Some (f, rest) =>
      data <- lift (json_loads f) ;;
      id_value <- try_except (lift (json_getitem data "id"))
                             is_KeyError
                             (fun e => print "Client did not provide an ID string" ;;
                                       raise e) ;;
      match id_value with
      | JStr id_string =>
          let subscriber := subscriber_string id_string in
          set_subscriber_topic subscriber ;;
          modify (fun st =>
                    with_active_sockets
                      (active_sockets st ++ [make_entry websocket subscriber]) st) ;;
          ret (id_string, rest)
      | _ =>
          (* id_string.replace: only a str has the method *)
          raise AttributeError
      end
  end.

(** *** Outbound Relay: [receive_data] *)

(** [except (websockets.exceptions.ConnectionClosed, TypeError)] *)
Definition relay_handles (e : exn) : bool :=
  is_ConnectionClosed e ||
  match e with TypeError => true | _ => false end.

(** [self.active_sockets = [entry for entry in self.active_sockets
                            if websocket not in entry]] *)
Definition remove_entries (websocket : conn) : M unit :=
  modify (fun st =>
            with_active_sockets
              (filter (fun entry => negb (Dict.mem key_eqb (KSock websocket) entry))
                      (active_sockets st)) st).

Fixpoint receive_data (websocket : conn) (publisher_topic : string)
         (inputs : list recv_event) {struct inputs} : M unit :=
  match inputs with
  | RecvFrame f :: rest =>
      (* recv() gives [f]; json.loads(data) is inside the try *)
      data <- try_except (d <- lift (json_loads f) ;; ret (Some d))
                         relay_handles
                         (fun _ => remove_entries websocket ;; ret None) ;;
      match data with
      | None => ret tt                                   (* break *)
      | Some d =>
          publish_payload d publisher_topic ;;
          receive_data websocket publisher_topic rest    (* next turn of the loop *)
      end
  | _ =>
      (* recv() raises, or waits *)
      try_except (recv websocket inputs ;; ret tt)
                 relay_handles
                 (fun _ => remove_entries websocket)
  end.

Definition wsg (websocket : conn) (inputs : list recv_event) : M unit :=
  ' (id_string, rest) <- handshake websocket inputs ;;
  receive_data websocket id_string rest.

(** *** Inbound Router: [incoming_message_processing] *)

(** The body of the loop of lines 192-195:
    [if topic in socket.keys(): pub_socket = socket[topic];
     await pub_socket.close()] *)
Definition close_if_bound (topic : string) (socket : entry) : M unit :=
  if Dict.mem key_eqb (KStr topic) socket then
    pub_socket <- lift (Dict.getitem key_eqb (KStr topic) socket) ;;
    val_close pub_socket
  else ret tt.

(** The body of the loop of lines 206-209:
    [if topic in socket.keys(): pub_socket = socket[topic];
     await pub_socket.send(ws_data)] *)
Definition send_if_bound (topic ws_data : string) (socket : entry) : M unit :=
  if Dict.mem key_eqb (KStr topic) socket then
    pub_socket <- lift (Dict.getitem key_eqb (KStr topic) socket) ;;
    val_send pub_socket ws_data
  else ret tt.

(** Lines 190-195: [if payload['report'] == 'panic': ...] *)
Definition panic_step (topic : string) (payload : dict) : M unit :=
  report <- lift (Dict.getitem String.eqb "report" payload) ;;
  if json_eq_str report "panic" then
    sockets <- gets active_sockets ;;
    for_each (close_if_bound topic) sockets
  else ret tt.

(** Lines 197-200: [if 'timestamp' in payload: ...]; the value is the
    payload after the assignment. *)
Definition timestamp_step (payload : dict) : M dict :=
  if Dict.mem String.eqb "timestamp" payload then
    ts <- lift (Dict.getitem String.eqb "timestamp" payload) ;;
    timestamp <- lift (fromtimestamp_strftime ts) ;;
    ret (Dict.set String.eqb "timestamp" (JStr timestamp) payload)
  else ret payload.

(** Lines 202-209: [ws_data = json.dumps(payload)] and the sends *)
Definition fanout_step (topic : string) (payload : dict) : M unit :=
  let ws_data := json_dumps (JObj payload) in
  sockets <- gets active_sockets ;;
  for_each (send_if_bound topic ws_data) sockets.

Definition incoming_message_processing (topic : string) (payload : dict) : M unit :=
  panic_step topic payload ;;
  payload' <- timestamp_step payload ;;
  fanout_step topic payload'.

End Gateway.

(** ** Observations on tables and traces *)

(** The entries of a table that hold the connection as a key. *)
Definition entries_of (websocket : conn) (table : list entry) : list entry :=
  filter (Dict.mem key_eqb (KSock websocket)) table.

(** The table without the entries that hold the connection as a key. *)
Definition without (websocket : conn) (table : list entry) : list entry :=
  filter (fun entry => negb (Dict.mem key_eqb (KSock websocket) entry)) table.

(** The entries of a table that hold the topic as a key. *)
Definition entries_for (topic : string) (table : list entry) : list entry :=
  filter (Dict.mem key_eqb (KStr topic)) table.

(** The sessions whose subscribe topic is [topic]. *)
Definition bound_to (topic : string) (sessions : list (conn * string))
  : list (conn * string) :=
  filter (fun s => String.eqb (snd s) topic) sessions.

(** The connections on which [close()] was called, in order. *)
Definition closes (tr : list event) : list conn :=
  flat_map (fun ev => match ev with EvClose w => [w] | _ => [] end) tr.

(** The frames sent, in order. *)
Definition sends (tr : list event) : list (conn * string) :=
  flat_map (fun ev => match ev with EvSend w d => [(w, d)] | _ => [] end) tr.

(** The state after [close()] has been called on each connection of a
    list, and after a frame has been sent to each. *)
Definition close_all (ws : list conn) (st : state) : state :=
  fold_left (fun st w => with_closed w CloseOK (emit (EvClose w) st)) ws st.

Definition send_all (data : string) (ws : list conn) (st : state) : state :=
  fold_left (fun st w => emit (EvSend w data) st) ws st.

(** The state after the relay of each session of a list, waiting in
    [recv()] with no frame left, has run as far as it can;
    [publisher_topic] gives each relay its second argument. *)
Definition resume_relays {lib : Library} (publisher_topic : conn -> string)
           (sessions : list (conn * string)) (st : state) : state :=
  fold_left (fun st s => snd (receive_data (fst s) (publisher_topic (fst s)) [] st))
            sessions st.

(** [st'] differs from [st] by frames sent only. *)
Definition sends_only (data : string) (st st' : state) : Prop :=
  active_sockets st' = active_sockets st /\
  wsocket st' = wsocket st /\
  closed st' = closed st /\
  exists ws, trace st' = (trace st ++ map (fun w => EvSend w data) ws)%list.

(** An empty gateway: [self.active_sockets = []], no connection yet. *)
Definition initial : state := mkState [] None [] [].

(** ** A sample of the libraries, for the examples *)

Module Sample.

Definition dquote : string := String (ascii_of_nat 34) EmptyString.

(** The frame [{"id": "<id>"}] *)
Definition id_frame (id : string) : frame :=
  Text ("{" ++ dquote ++ "id" ++ dquote ++ ": " ++ dquote ++ id ++ dquote ++ "}").

(** [json.loads] on the frames of the examples; every other frame is
    taken as malformed. *)
Definition loads (f : frame) : result json :=
  match f with
  | Text s =>
      if String.eqb s "{}" then Ok (JObj [])
      else if String.eqb s "[]" then Ok (JList [])
      else if String.eqb s "7" then Ok (JInt 7)
      else if String.eqb s "18446744073709551616" then Ok (JInt (2 ^ 64))
      else if String.eqb s (match id_frame "to_arduino" with Text t => t | _ => s end)
      then Ok (JObj [("id", JStr "to_arduino")])
      else if String.eqb s (match id_frame "to_device1" with Text t => t | _ => s end)
      then Ok (JObj [("id", JStr "to_device1")])
      else Err JSONDecodeError
  | Binary _ => Err JSONDecodeError
  end.

Definition decimal (z : Z) : string :=
  DecimalString.NilZero.string_of_int (Z.to_int z).

(** [json.dumps] on dictionaries of integers, booleans, [None] and
    plain strings, which is what the examples send; any other value
    is written [null]. *)
Definition dumps_scalar (v : json) : string :=
  match v with
  | JBool true => "true"
  | JBool false => "false"
  | JInt z => decimal z
  | JStr s => dquote ++ s ++ dquote
  | _ => "null"
  end.

Fixpoint dumps_items (o : list (string * json)) : string :=
  match o with
  | [] => ""
  | [(k, v)] => dquote ++ k ++ dquote ++ ": " ++ dumps_scalar v
  | (k, v) :: rest =>
      dquote ++ k ++ dquote ++ ": " ++ dumps_scalar v ++ ", " ++ dumps_items rest
  end.

Definition dumps (v : json) : string :=
  match v with
  | JObj o => "{" ++ dumps_items o ++ "}"
  | _ => dumps_scalar v
  end.

(** Three sessions, two of them under the same subscribe topic, all
    connections open. *)
Definition sessions : list (conn * string) :=
  [(0%nat, "from_arduino"); (1%nat, "from_arduino"); (2%nat, "from_rpi")].

Definition gateway : state := mkState (table_of sessions) (Some 2%nat) [] [].

(** A report of the Arduino gateway, and a panic report. *)
Definition report_payload : dict :=
  [("report", JStr "digital_input"); ("pin", JInt 2); ("value", JInt 1);
   ("timestamp", JInt 1700000000)].

Definition normalized_payload : dict :=
  [("report", JStr "digital_input"); ("pin", JInt 2); ("value", JInt 1);
   ("timestamp", JStr "2023-11-14 22:13:20")].

Definition panic_payload : dict := [("report", JStr "panic")].

(** msgpack packs an integer from -2^63 to 2^64 - 1; on any other it
    raises OverflowError, wherever in the payload the integer is. *)
Fixpoint beyond_64_bits (v : json) : bool :=
  match v with
  | JInt z => (z <? - 2 ^ 63) || (2 ^ 64 - 1 <? z)
  | JList l => existsb beyond_64_bits l
  | JObj o => existsb (fun kv => beyond_64_bits (snd kv)) o
  | _ => false
  end.

(** Local time is UTC; no float is converted; a payload is published
    unless it holds an integer beyond 64 bits. *)
Definition library : Library := {|
  json_loads := loads;
  json_dumps := dumps;
  float_seconds := fun _ => Err RangeError;
  utcoffset := fun _ => 0;
  publish_error := fun v => if beyond_64_bits v then Some OverflowError else None
|}.

End Sample.

(** ** More observations on traces *)

(** The payloads published on the bus, with their topics, in order. *)
Definition publishes (tr : list event) : list (string * json) :=
  flat_map (fun ev => match ev with EvPublish t p => [(t, p)] | _ => [] end) tr.

(** The topics subscribed to, in order. *)
Definition subscriptions (tr : list event) : list string :=
  flat_map (fun ev => match ev with EvSubscribe t => [t] | _ => [] end) tr.

(** A call on a websocket: [close()] or [send()]. *)
Definition is_socket_call (ev : event) : bool :=
  match ev with
  | EvClose _ | EvSend _ _ => true
  | _ => false
  end.

(** [st'] differs from [st] by calls on websockets only: the table and
    [wsocket] are the same, and nothing went to the bus or the console. *)
Definition socket_calls_only (st st' : state) : Prop :=
  active_sockets st' = active_sockets st /\
  wsocket st' = wsocket st /\
  exists evs, trace st' = (trace st ++ evs)%list /\
              forallb is_socket_call evs = true.

(** The payloads that a relay publishes from what its connection
    holds: those of the frames up to the first one that [json.loads]
    rejects or that [publish_payload] raises on, or up to the closure. *)
Fixpoint relayed {lib : Library} (inputs : list recv_event) : list json :=
  match inputs with
  | RecvFrame f :: rest =>
      match json_loads f with
      | Ok data =>
          match publish_error data with
          | None => data :: relayed rest
          | Some _ => []
          end
      | Err _ => []
      end
  | _ => []
  end.

(** ** Start-up: [ws_gateway] and [WsGateway.__init__] *)

Module Startup.

(** [s.split(sep)] for a separator of one character. *)
Fixpoint split (sep : ascii) (s : string) : list string :=
  match s with
  | EmptyString => [EmptyString]
  | String c rest =>
      if Ascii.eqb c sep then EmptyString :: split sep rest
      else match split sep rest with
           | [] => [String c EmptyString]
           | piece :: pieces => String c piece :: pieces
           end
  end.

(** [sep.join(l)] *)
Fixpoint join (sep : string) (l : list string) : string :=
  match l with
  | [] => EmptyString
  | [x] => x
  | x :: rest => x ++ sep ++ join sep rest
  end.

(** [s.count(c)] for one character *)
Fixpoint count (c : ascii) (s : string) : nat :=
  match s with
  | EmptyString => O
  | String c' rest => (if Ascii.eqb c' c then 1 else 0) + count c rest
  end.

(** [args.subscription_list]: the parser's default is one string; with
    [-m] and [nargs='+'] it is the list of the words given. *)
Inductive topics : Type :=
| TopicString (s : string)
| TopicList (l : list string).

(** The namespace that [parser.parse_args()] returns. *)
Record arguments : Type := mkArguments {
  back_plane_ip_address : string;
  subscription_list : topics;
  server_ip_port : string;
  log : string;
  process_name : string;
  publisher_port : string;
  subscriber_port : string
}.

(** The defaults of the parser, lines 227-249. *)
Definition defaults : arguments := {|
  back_plane_ip_address := "None";
  subscription_list :=
    TopicString ("from_arduino_gateway, " ++
                 "from_esp8266_gateway, " ++
                 "from_rpi_gateway, " ++
                 "from_microbit_gateway" ++
                 "from_picoboard_gateway" ++
                 "from_cpx_gateway");
  server_ip_port := "9000";
  log := "False";
  process_name := "WebSocket Gateway";
  publisher_port := "43124";
  subscriber_port := "43125"
|}.

(** [len(subscription_list)] *)
Definition len (t : topics) : nat :=
  match t with
  | TopicString s => String.length s
  | TopicList l => List.length l
  end.

(** [args.subscription_list.split(',')]: a list has no such method. *)
Definition split_method (t : topics) : result topics :=
  match t with
  | TopicString s => Ok (TopicList (split "," s))
  | TopicList _ => Err AttributeError
  end.

(** [server_ip_port] of the constructor: its default is the integer
    9000, the command line gives a string. *)
Inductive port : Type :=
| PortInt (n : Z)
| PortStr (s : string).

(** The arguments with which [WsGateway] is constructed; a parameter
    left out of the call has the default of the signature. *)
Record call : Type := mkCall {
  call_subscription_list : topics;
  call_back_plane_ip_address : option string;
  call_subscriber_port : string;
  call_publisher_port : string;
  call_process_name : string;
  call_server_ip_port : port;
  call_log : bool
}.

(** [ws_gateway], lines 251-283, up to the call
    [WsGateway(subscription_list, **kw_options, event_loop=loop)];
    [lower] is [str.lower]. *)
Definition constructor_call (lower : string -> string) (args : arguments)
  : result call :=
  match (if (1 <? len (subscription_list args))%nat
         then split_method (subscription_list args)
         else Ok (subscription_list args)) with
  | Err e => Err e
  | Ok subscription_list =>
      (* kw_options: the four keys of lines 258-263; [log] is computed
         from [args.log] and put in no dictionary *)
      let log := negb (String.eqb (lower (log args)) "false") in
      Ok {| call_subscription_list := subscription_list;
            call_back_plane_ip_address :=
              if String.eqb (back_plane_ip_address args) "None"
              then None
              else Some (back_plane_ip_address args);
            call_subscriber_port := subscriber_port args;
            call_publisher_port := publisher_port args;
            call_process_name := process_name args;
            call_server_ip_port := PortStr (server_ip_port args);
            call_log := false |}
  end.

(** Exceptions at start-up: those of [exn], and three more classes. *)
Inductive failure : Type :=
| Gateway (e : exn)
| RuntimeError
| KeyboardInterrupt
| OSError.

(** [except (websockets.exceptions.ConnectionClosed, RuntimeError,
            KeyboardInterrupt)] *)
Definition init_handles (f : failure) : bool :=
  match f with
  | Gateway e => is_ConnectionClosed e
  | RuntimeError | KeyboardInterrupt => true
  | OSError => false
  end.

(** What the constructor does, in order. *)
Inductive step : Type :=
| SetUpLogging                 (* lines 72-75 *)
| BaseInit                     (* super().__init__(...) *)
| Serve (p : port)             (* websockets.serve(self.wsg, '0.0.0.0', port) *)
| Banner (text : string)       (* print *)
| RunUntilComplete
| CreateWakeupTask
| RunForever
| LogException                 (* logging.exception *)
| LoopStop
| LoopClose.

(** What the constructor meets: the address that the base class leaves
    in [self.back_plane_ip_address], and the exception, if any, raised
    by the base class, by [run_until_complete] and by [run_forever]. *)
Record environment : Type := mkEnvironment {
  base_address : string;
  base_raises : option failure;
  start_raises : option failure;
  forever_raises : option failure
}.

(** The body of the [try] of lines 90-99. *)
Definition init_try (c : call) (env : environment) : list step * option failure :=
  match call_server_ip_port c with
  | PortInt n =>
      (* str + int in the argument of print *)
      ([Serve (PortInt n)], Some (Gateway TypeError))
  | PortStr s =>
      let started :=
        [Serve (PortStr s);
         Banner ("WebSocket using: " ++ base_address env ++ ":" ++ s);
         RunUntilComplete] in
      match start_raises env with
      | Some f => (started, Some f)
      | None =>
          ((started ++ [CreateWakeupTask; RunForever])%list, forever_raises env)
      end
  end.

(** [WsGateway.__init__]: the steps taken and the exception that leaves
    the constructor, if any. *)
Definition init (c : call) (env : environment) : list step * option failure :=
  let logging := if call_log c then [SetUpLogging] else [] in
  match base_raises env with
  | Some f => ((logging ++ [BaseInit])%list, Some f)
  | None =>
      match init_try c env with
      | (steps, Some f) =>
          if init_handles f
          then ((logging ++ [BaseInit] ++ steps ++
                 (if call_log c then [LogException] else []) ++
                 [LoopStop; LoopClose])%list, None)
          else ((logging ++ [BaseInit] ++ steps)%list, Some f)
      | (steps, None) => ((logging ++ [BaseInit] ++ steps)%list, None)
      end
  end.

(** From the command line to the end of the constructor. *)
Definition run (lower : string -> string) (args : arguments) (env : environment)
  : list step * option failure :=
  match constructor_call lower args with
  | Err e => ([], Some (Gateway e))
  | Ok c => init c env
  end.

End Startup.

(** * Properties *)

(** ** Topic Deriver *)

Example subscriber_string_arduino :
  subscriber_string "to_arduino" = "from_arduino".
Proof. reflexivity. Qed.

Lemma subscriber_string_nil : subscriber_string "" = "".
Proof. reflexivity. Qed.

Lemma subscriber_string_to (rest : string) :
  subscriber_string (String "t" (String "o" rest)) = "from" ++ subscriber_string rest.
Proof. reflexivity. Qed.

Lemma subscriber_string_other (c : ascii) (rest : string) :
  PyStr.startswith "to" (String c rest) = false ->
  subscriber_string (String c rest) = String c (subscriber_string rest).
Proof.
  unfold subscriber_string, PyStr.replace. cbn [PyStr.replace_scan].
  intros ->. reflexivity.
Qed.

(** An occurrence of "to" cannot begin in a text free of it and run
    into a following "to". *)
Lemma startswith_to_app (c : ascii) (a b : string) :
  PyStr.contains "to" (String c a) = false ->
  PyStr.startswith "to" (String c (a ++ "to" ++ b)) = false.
Proof.
  cbn [PyStr.contains]. intros H.
  apply orb_false_iff in H as [H _]. revert H.
  cbn [PyStr.startswith].
  destruct (Ascii.eqb "t" c); [ | reflexivity ].
  destruct a as [ | c' a']; cbn [String.append PyStr.startswith andb].
  - reflexivity.
  - destruct (Ascii.eqb "o" c'); [ discriminate | reflexivity ].
Qed.

Lemma subscriber_string_split (a b : string) :
  PyStr.contains "to" a = false ->
  subscriber_string (a ++ "to" ++ b) = a ++ "from" ++ subscriber_string b.
Proof.
  induction a as [ | c a IH]; intros H.
  - reflexivity.
  - change (String c a ++ "to" ++ b) with (String c (a ++ "to" ++ b)).
    rewrite subscriber_string_other by (apply startswith_to_app; exact H).
    rewrite IH; [ reflexivity | ].
    cbn [PyStr.contains] in H. apply orb_false_iff in H. apply H.
Qed.

Lemma subscriber_string_without_to (s : string) :
  PyStr.contains "to" s = false -> subscriber_string s = s.
Proof.
  induction s as [ | c s IH]; intros H.
  - reflexivity.
  - cbn [PyStr.contains] in H. apply orb_false_iff in H as [H1 H2].
    rewrite subscriber_string_other by exact H1.
    rewrite IH by exact H2. reflexivity.
Qed.

(** C1, as the specification words it, fails: with two occurrences of
    "to" the derived topic is not the id with only the first one
    replaced. *)
Lemma C1_first_occurrence_only_fails :
  PyStr.contains "to" "to_tomato" = true /\
  PyStr.replace_first "to" "from" "to_tomato" = "from_tomato" /\
  subscriber_string "to_tomato" = "from_frommafrom" /\
  subscriber_string "to_tomato" <> PyStr.replace_first "to" "from" "to_tomato".
Proof.
  repeat split; try reflexivity. discriminate.
Qed.

(** C1, amended: the derived subscribe topic is the id with every
    occurrence of "to", taken from left to right without overlap,
    replaced by "from": up to and including the first occurrence the id
    is rewritten as the specification says, and the text after it is
    derived in the same way; an id without "to" is returned as it is.
    The deriver is a total function on strings, so no error is raised. *)
Theorem C1_subscriber_string_replaces_every_occurrence (a b : string) :
  PyStr.contains "to" a = false ->
  subscriber_string (a ++ "to" ++ b) = a ++ "from" ++ subscriber_string b /\
  subscriber_string a = a /\
  (PyStr.contains "to" b = false ->
   subscriber_string (a ++ "to" ++ b) = PyStr.replace_first "to" "from" (a ++ "to" ++ b)).
Proof.
  intros Ha. split; [ | split ].
  - apply subscriber_string_split, Ha.
  - apply subscriber_string_without_to, Ha.
  - intros Hb.
    rewrite subscriber_string_split by exact Ha.
    rewrite subscriber_string_without_to by exact Hb.
    clear Hb. induction a as [ | c a IH].
    + reflexivity.
    + change (String c a ++ "to" ++ b) with (String c (a ++ "to" ++ b)).
      cbn [PyStr.replace_first].
      rewrite (startswith_to_app c a b Ha).
      change (String c a ++ "from" ++ b) with (String c (a ++ "from" ++ b)).
      f_equal. apply IH.
      cbn [PyStr.contains] in Ha. apply orb_false_iff in Ha. apply Ha.
Qed.


Lemma C1_subscriber_string_witness :
  PyStr.contains "to" "my_" = false /\
  subscriber_string ("my_" ++ "to" ++ "_total") = "my_" ++ "from" ++ subscriber_string "_total".
Proof.
  split; [ reflexivity | ].
  exact (proj1 (C1_subscriber_string_replaces_every_occurrence "my_" "_total" eq_refl)).
Defined.

(** ** The calendar *)

Lemma civil_from_days_bounds (days : Z) :
  let '(y, m, d) := Calendar.civil_from_days days in
  1 <= m <= 12 /\ 1 <= d <= 31.
Proof.
  unfold Calendar.civil_from_days.
  set (z := days + 719468).
  set (doe := z mod 146097).
  assert (Hdoe : 0 <= doe < 146097) by (apply Z.mod_pos_bound; lia).
  set (yoe := (doe - doe / 1460 + doe / 36524 - doe / 146096) / 365).
  set (doy := doe - (365 * yoe + yoe / 4 - yoe / 100)).
  assert (Hyoe : 0 <= yoe <= 399).
  { subst yoe. Z.to_euclidean_division_equations. lia. }
  assert (Hdoy : 0 <= doy <= 365).
  { subst doy yoe. Z.to_euclidean_division_equations. lia. }
  set (mp := (5 * doy + 2) / 153).
  assert (Hmp : 0 <= mp <= 11).
  { subst mp. Z.to_euclidean_division_equations. lia. }
  assert (Hd : 1 <= doy - (153 * mp + 2) / 5 + 1 <= 31).
  { subst mp. Z.to_euclidean_division_equations. lia. }
  split; [ | exact Hd ].
  destruct (mp <? 10) eqn:E; [ apply Z.ltb_lt in E | apply Z.ltb_ge in E ]; lia.
Qed.

Lemma is_digit_digit (d : Z) :
  0 <= d <= 9 -> Calendar.is_digit (Calendar.digit d) = true.
Proof.
  intros H.
  assert (E : d = 0 \/ d = 1 \/ d = 2 \/ d = 3 \/ d = 4 \/
              d = 5 \/ d = 6 \/ d = 7 \/ d = 8 \/ d = 9) by lia.
  repeat (destruct E as [-> | E]; [ reflexivity | ]). subst d. reflexivity.
Qed.

Lemma strftime_shape (local : Z) :
  Calendar.valid local = true ->
  Calendar.has_shape
    (Calendar.year_pattern (Calendar.year local) ++ "-dd-dd dd:dd:dd")
    (Calendar.strftime local) = true.
Proof.
  unfold Calendar.valid, Calendar.year, Calendar.strftime.
  pose proof (civil_from_days_bounds (local / 86400)) as B.
  destruct (Calendar.civil_from_days (local / 86400)) as [[y m] d].
  destruct B as [Bm Bd].
  intros Ey. apply andb_true_iff in Ey as [Ey1 Ey2].
  apply Z.leb_le in Ey1, Ey2. unfold Calendar.MINYEAR, Calendar.MAXYEAR in *.
  assert (Hs : 0 <= local mod 86400 < 86400) by (apply Z.mod_pos_bound; lia).
  unfold Calendar.year_text, Calendar.year_pattern.
  destruct (Z.ltb_spec y 10); [ | destruct (Z.ltb_spec y 100);
                                  [ | destruct (Z.ltb_spec y 1000) ] ];
    unfold Calendar.pad2, Calendar.pad4;
    cbn [Calendar.has_shape String.append Ascii.eqb Bool.eqb andb];
    (rewrite !is_digit_digit; [ reflexivity | .. ];
     Z.to_euclidean_division_equations; lia).
Qed.

(** From the year 1000 on the year has four digits. *)
Lemma year_pattern_four_digits (y : Z) :
  1000 <= y -> Calendar.year_pattern y = "dddd".
Proof.
  intros H. unfold Calendar.year_pattern.
  destruct (Z.ltb_spec y 10); [ lia | ].
  destruct (Z.ltb_spec y 100); [ lia | ].
  destruct (Z.ltb_spec y 1000); [ lia | reflexivity ].
Qed.

(** A conversion that succeeds gives the local time of the instant,
    and that is a valid [datetime]. *)
Lemma fromtimestamp_ok {lib : Library} (t local : Z) :
  fromtimestamp t = Ok local ->
  local = t + utcoffset t /\ Calendar.valid local = true.
Proof.
  unfold fromtimestamp.
  destruct (Calendar.valid (t + utcoffset t)) eqn:E; [ | discriminate ].
  destruct (Calendar.valid (t - max_fold_seconds + utcoffset (t - max_fold_seconds)));
    [ | discriminate ].
  match goal with
  | |- context [if ?c then _ else _] => destruct c
  end; [ discriminate | ].
  intros H. injection H as <-. split; [ reflexivity | exact E ].
Qed.

(** ** Entries and the state *)

Lemma mem_make_entry_topic (topic : string) (w : conn) (sub : string) :
  Dict.mem key_eqb (KStr topic) (make_entry w sub) = String.eqb topic sub.
Proof.
  unfold Dict.mem, make_entry. cbn.
  destruct (String.eqb topic sub); reflexivity.
Qed.

Lemma getitem_make_entry_topic (topic : string) (w : conn) (sub : string) :
  String.eqb topic sub = true ->
  Dict.getitem key_eqb (KStr topic) (make_entry w sub) = Ok (VSock w).
Proof.
  intros H. unfold Dict.getitem, make_entry. cbn. rewrite H. reflexivity.
Qed.

Lemma mem_make_entry_conn (w' w : conn) (sub : string) :
  Dict.mem key_eqb (KSock w') (make_entry w sub) = Nat.eqb w' w.
Proof.
  unfold Dict.mem, make_entry. cbn.
  destruct (Nat.eqb w' w); reflexivity.
Qed.

Lemma get_app_last (w w' : conn) (k : close_kind) (l : list (conn * close_kind)) :
  Dict.get Nat.eqb w (l ++ [(w', k)])%list =
  match Dict.get Nat.eqb w l with
  | Some k' => Some k'
  | None => if Nat.eqb w w' then Some k else None
  end.
Proof.
  induction l as [ | [w0 k0] l IH]; cbn.
  - reflexivity.
  - destruct (Nat.eqb w w0); [ reflexivity | exact IH ].
Qed.

Lemma is_open_emit (w : conn) (ev : event) (st : state) :
  is_open w (emit ev st) = is_open w st.
Proof. reflexivity. Qed.

Lemma is_open_with_closed (w w' : conn) (k : close_kind) (st : state) :
  is_open w (with_closed w' k st) = is_open w st && negb (Nat.eqb w w').
Proof.
  unfold is_open, with_closed, closed_kind. cbn [closed].
  destruct (Dict.get Nat.eqb w' (closed st)) eqn:E'.
  - destruct (Nat.eqb w w') eqn:E.
    + apply Nat.eqb_eq in E. subst w'. rewrite E'. reflexivity.
    + rewrite andb_true_r. reflexivity.
  - rewrite get_app_last.
    destruct (Dict.get Nat.eqb w (closed st)); [ reflexivity | ].
    destruct (Nat.eqb w w'); reflexivity.
Qed.

Lemma closes_app (tr tr' : list event) : closes (tr ++ tr')%list = (closes tr ++ closes tr')%list.
Proof. unfold closes. apply flat_map_app. Qed.

Lemma sends_app (tr tr' : list event) : sends (tr ++ tr')%list = (sends tr ++ sends tr')%list.
Proof. unfold sends. apply flat_map_app. Qed.

(** *** [close_all] and [send_all] *)

Lemma close_all_table (ws : list conn) (st : state) :
  active_sockets (close_all ws st) = active_sockets st.
Proof.
  revert st. induction ws as [ | w ws IH]; intros st; cbn.
  - reflexivity.
  - unfold close_all in IH. rewrite IH. reflexivity.
Qed.

Lemma close_all_trace (ws : list conn) (st : state) :
  trace (close_all ws st) = (trace st ++ map EvClose ws)%list.
Proof.
  revert st. induction ws as [ | w ws IH]; intros st; cbn.
  - symmetry. apply app_nil_r.
  - unfold close_all in IH. rewrite IH. cbn. rewrite <- app_assoc. reflexivity.
Qed.

Lemma closes_map_EvClose (ws : list conn) : closes (map EvClose ws) = ws.
Proof. induction ws as [ | w ws IH]; [ reflexivity | cbn; f_equal; exact IH ]. Qed.

Lemma sends_map_EvClose (ws : list conn) : sends (map EvClose ws) = [].
Proof. induction ws as [ | w ws IH]; [ reflexivity | cbn; f_equal; exact IH ]. Qed.

Lemma close_all_is_open (w : conn) (ws : list conn) (st : state) :
  is_open w (close_all ws st) = is_open w st && negb (existsb (Nat.eqb w) ws).
Proof.
  revert st. induction ws as [ | w' ws IH]; intros st; cbn.
  - symmetry. apply andb_true_r.
  - unfold close_all in IH. rewrite IH.
    rewrite is_open_with_closed, is_open_emit.
    rewrite negb_orb, andb_assoc. reflexivity.
Qed.

Lemma send_all_trace (data : string) (ws : list conn) (st : state) :
  trace (send_all data ws st) = (trace st ++ map (fun w => EvSend w data) ws)%list.
Proof.
  revert st. induction ws as [ | w ws IH]; intros st; cbn.
  - symmetry. apply app_nil_r.
  - unfold send_all in IH. rewrite IH. cbn. rewrite <- app_assoc. reflexivity.
Qed.

Lemma send_all_rest (data : string) (ws : list conn) (st : state) :
  active_sockets (send_all data ws st) = active_sockets st /\
  wsocket (send_all data ws st) = wsocket st /\
  closed (send_all data ws st) = closed st.
Proof.
  revert st. induction ws as [ | w ws IH]; intros st; cbn.
  - repeat split.
  - unfold send_all in IH. destruct (IH (emit (EvSend w data) st)) as (-> & -> & ->).
    repeat split.
Qed.

Lemma sends_map_EvSend (data : string) (ws : list conn) :
  sends (map (fun w => EvSend w data) ws) = map (fun w => (w, data)) ws.
Proof. induction ws as [ | w ws IH]; [ reflexivity | cbn; f_equal; exact IH ]. Qed.

Lemma closes_map_EvSend (data : string) (ws : list conn) :
  closes (map (fun w => EvSend w data) ws) = [].
Proof. induction ws as [ | w ws IH]; [ reflexivity | cbn; f_equal; exact IH ]. Qed.

(** ** The loops of the Inbound Router *)

Section Router.

Context {lib : Library}.

Lemma close_if_bound_entry (topic : string) (s : conn * string) (st : state) :
  close_if_bound topic (make_entry (fst s) (snd s)) st =
  (Ret tt, if String.eqb (snd s) topic
           then with_closed (fst s) CloseOK (emit (EvClose (fst s)) st)
           else st).
Proof.
  unfold close_if_bound. rewrite mem_make_entry_topic, String.eqb_sym.
  destruct (String.eqb (snd s) topic) eqn:E; [ | reflexivity ].
  rewrite getitem_make_entry_topic by (rewrite String.eqb_sym; exact E).
  reflexivity.
Qed.

(** The loop of the panic handling closes the connection of every
    session bound to the topic, in the order of the table. *)
Lemma panic_loop (topic : string) (sessions : list (conn * string)) (st : state) :
  for_each (close_if_bound topic) (table_of sessions) st =
  (Ret tt, close_all (map fst (bound_to topic sessions)) st).
Proof.
  revert st. induction sessions as [ | s sessions IH]; intros st.
  - reflexivity.
  - cbn [table_of map for_each]. unfold bind at 1.
    rewrite close_if_bound_entry. fold (table_of sessions).
    rewrite IH. cbn [bound_to filter].
    destruct (String.eqb (snd s) topic); reflexivity.
Qed.

Lemma send_if_bound_entry (topic data : string) (s : conn * string) (st : state) :
  send_if_bound topic data (make_entry (fst s) (snd s)) st =
  if String.eqb (snd s) topic then send (fst s) data st else (Ret tt, st).
Proof.
  unfold send_if_bound. rewrite mem_make_entry_topic, String.eqb_sym.
  destruct (String.eqb (snd s) topic) eqn:E; [ | reflexivity ].
  rewrite getitem_make_entry_topic by (rewrite String.eqb_sym; exact E).
  reflexivity.
Qed.

Lemma send_open (w : conn) (data : string) (st : state) :
  is_open w st = true -> send w data st = (Ret tt, emit (EvSend w data) st).
Proof.
  unfold is_open, send. destruct (closed_kind w st); [ discriminate | reflexivity ].
Qed.

Lemma send_closed (w : conn) (data : string) (st : state) :
  is_open w st = false ->
  exists k, closed_kind w st = Some k /\ send w data st = (Raise (closed_exn k), st).
Proof.
  unfold is_open, send. destruct (closed_kind w st) as [k | ]; [ | discriminate ].
  intros _. exists k. split; reflexivity.
Qed.

(** With every bound connection open, the loop of the fan-out sends
    the frame to each of them, in the order of the table. *)
Lemma fanout_loop_open (topic data : string) (sessions : list (conn * string))
      (st : state) :
  (forall w, In w (map fst (bound_to topic sessions)) -> is_open w st = true) ->
  for_each (send_if_bound topic data) (table_of sessions) st =
  (Ret tt, send_all data (map fst (bound_to topic sessions)) st).
Proof.
  revert st. induction sessions as [ | s sessions IH]; intros st Hopen.
  - reflexivity.
  - cbn [table_of map for_each]. unfold bind at 1.
    rewrite send_if_bound_entry. fold (table_of sessions).
    cbn [bound_to filter] in *.
    destruct (String.eqb (snd s) topic).
    + rewrite send_open by (apply Hopen; left; reflexivity).
      rewrite IH; [ reflexivity | ].
      intros w Hw. rewrite is_open_emit. apply Hopen. right. exact Hw.
    + apply IH, Hopen.
Qed.

(** With every bound connection closed and at least one session
    bound, the first send of the fan-out raises [ConnectionClosed] and
    nothing is sent. *)
Lemma fanout_loop_closed (topic data : string) (sessions : list (conn * string))
      (st : state) :
  bound_to topic sessions <> [] ->
  (forall w, In w (map fst (bound_to topic sessions)) -> is_open w st = false) ->
  exists k, for_each (send_if_bound topic data) (table_of sessions) st =
            (Raise (closed_exn k), st).
Proof.
  induction sessions as [ | s sessions IH]; intros Hne Hclosed.
  - contradiction Hne. reflexivity.
  - cbn [table_of map for_each]. unfold bind at 1.
    rewrite send_if_bound_entry. fold (table_of sessions).
    cbn [bound_to filter] in *.
    destruct (String.eqb (snd s) topic).
    + destruct (send_closed (fst s) data st) as (k & _ & ->).
      { apply Hclosed. left. reflexivity. }
      exists k. reflexivity.
    + apply IH; assumption.
Qed.

End Router.

(** ** Payload dictionaries *)

Lemma get_set (k k' : string) (v : json) (d : dict) :
  Dict.get String.eqb k (Dict.set String.eqb k' v d) =
  if String.eqb k k' then Some v else Dict.get String.eqb k d.
Proof.
  induction d as [ | [k0 v0] d IH]; cbn.
  - destruct (String.eqb k k'); reflexivity.
  - destruct (String.eqb_spec k' k0) as [-> | Hne]; cbn.
    + destruct (String.eqb k k0); reflexivity.
    + rewrite IH. destruct (String.eqb_spec k k') as [-> | _]; [ | reflexivity ].
      destruct (String.eqb_spec k' k0) as [E | _]; [ contradiction | reflexivity ].
Qed.

Lemma keys_set (k : string) (v : json) (d : dict) :
  Dict.mem String.eqb k d = true ->
  Dict.keys (Dict.set String.eqb k v d) = Dict.keys d.
Proof.
  unfold Dict.mem, Dict.keys.
  induction d as [ | [k0 v0] d IH]; cbn.
  - discriminate.
  - destruct (String.eqb k k0); cbn; intros H.
    + reflexivity.
    + f_equal. apply IH, H.
Qed.

(** ** What the router leaves alone *)

Lemma sends_only_refl (data : string) (st : state) : sends_only data st st.
Proof.
  repeat split. exists []. symmetry. apply app_nil_r.
Qed.

Lemma sends_only_emit (data : string) (w : conn) (st st' : state) :
  sends_only data (emit (EvSend w data) st) st' -> sends_only data st st'.
Proof.
  intros (Ha & Hw & Hc & ws & Ht). repeat split; try assumption.
  exists (w :: ws). rewrite Ht. cbn. rewrite <- app_assoc. reflexivity.
Qed.

Section RouterFrame.

Context {lib : Library}.

Lemma send_if_bound_sends_only (topic data : string) (socket : entry) (st : state) :
  sends_only data st (snd (send_if_bound topic data socket st)).
Proof.
  unfold send_if_bound.
  destruct (Dict.mem key_eqb (KStr topic) socket); [ | apply sends_only_refl ].
  unfold bind.
  destruct (Dict.getitem key_eqb (KStr topic) socket) as [[s | w] | e]; cbn;
    try apply sends_only_refl.
  unfold send. destruct (closed_kind w st); cbn.
  - apply sends_only_refl.
  - apply (sends_only_emit data w), sends_only_refl.
Qed.

Lemma sends_only_trans (data : string) (st1 st2 st3 : state) :
  sends_only data st1 st2 -> sends_only data st2 st3 -> sends_only data st1 st3.
Proof.
  intros (Ha & Hw & Hc & ws & Ht) (Ha' & Hw' & Hc' & ws' & Ht').
  repeat split; try congruence.
  exists (ws ++ ws')%list. rewrite Ht', Ht, map_app, app_assoc. reflexivity.
Qed.

Lemma fanout_loop_sends_only (topic data : string) (table : list entry) (st : state) :
  sends_only data st (snd (for_each (send_if_bound topic data) table st)).
Proof.
  revert st. induction table as [ | socket table IH]; intros st.
  - apply sends_only_refl.
  - cbn [for_each]. unfold bind at 1.
    pose proof (send_if_bound_sends_only topic data socket st) as H.
    destruct (send_if_bound topic data socket st) as [[[] | e | ] st1]; cbn in *;
      try exact H.
    eapply sends_only_trans; [ exact H | apply IH ].
Qed.

Lemma fanout_step_sends_only (topic : string) (payload : dict) (st : state) :
  sends_only (json_dumps (JObj payload)) st (snd (fanout_step topic payload st)).
Proof.
  unfold fanout_step, bind, gets. apply fanout_loop_sends_only.
Qed.

(** Step 2 neither reads nor changes the state. *)
Lemma timestamp_step_pure (payload : dict) (st : state) :
  timestamp_step payload st =
  (match Dict.get String.eqb "timestamp" payload with
   | None => Ret payload
   | Some v =>
       match fromtimestamp_strftime v with
       | Ok s => Ret (Dict.set String.eqb "timestamp" (JStr s) payload)
       | Err e => Raise e
       end
   end, st).
Proof.
  unfold timestamp_step, Dict.mem, Dict.getitem.
  destruct (Dict.get String.eqb "timestamp" payload) as [v | ]; [ | reflexivity ].
  unfold bind, lift, ret. cbn.
  destruct (fromtimestamp_strftime v); reflexivity.
Qed.

Lemma timestamp_step_state (payload : dict) (st : state) :
  snd (timestamp_step payload st) = st.
Proof. rewrite timestamp_step_pure. reflexivity. Qed.

(** The panic handling on any table: it changes neither the table nor
    [wsocket], and sends nothing. *)
Lemma close_if_bound_frame (topic : string) (socket : entry) (st : state) :
  let st' := snd (close_if_bound topic socket st) in
  active_sockets st' = active_sockets st /\ sends (trace st') = sends (trace st).
Proof.
  unfold close_if_bound.
  destruct (Dict.mem key_eqb (KStr topic) socket); [ | split; reflexivity ].
  unfold bind.
  destruct (Dict.getitem key_eqb (KStr topic) socket) as [[s | w] | e]; cbn;
    try (split; reflexivity).
  split; [ reflexivity | ].
  rewrite sends_app. cbn. apply app_nil_r.
Qed.

Lemma panic_loop_frame (topic : string) (table : list entry) (st : state) :
  let st' := snd (for_each (close_if_bound topic) table st) in
  active_sockets st' = active_sockets st /\ sends (trace st') = sends (trace st).
Proof.
  revert st. induction table as [ | socket table IH]; intros st.
  - split; reflexivity.
  - cbn [for_each]. unfold bind.
    pose proof (close_if_bound_frame topic socket st) as H.
    destruct (close_if_bound topic socket st) as [[[] | e | ] st1]; cbn in *;
      try exact H.
    destruct H as [H1 H2]. destruct (IH st1) as [H3 H4].
    split; congruence.
Qed.

Lemma panic_step_frame (topic : string) (payload : dict) (st : state) :
  let st' := snd (panic_step topic payload st) in
  active_sockets st' = active_sockets st /\ sends (trace st') = sends (trace st).
Proof.
  unfold panic_step, bind, gets.
  destruct (Dict.getitem String.eqb "report" payload) as [report | e]; cbn;
    [ | split; reflexivity ].
  destruct (json_eq_str report "panic"); [ | split; reflexivity ].
  apply panic_loop_frame.
Qed.

(** The router never changes [active_sockets]. *)
Lemma router_keeps_table (topic : string) (payload : dict) (st : state) :
  active_sockets (snd (incoming_message_processing topic payload st)) =
  active_sockets st.
Proof.
  unfold incoming_message_processing, bind at 1.
  pose proof (panic_step_frame topic payload st) as [H _].
  destruct (panic_step topic payload st) as [[[] | e | ] st1]; cbn in *;
    try exact H.
  unfold bind at 1. rewrite timestamp_step_pure.
  destruct (Dict.get String.eqb "timestamp" payload) as [v | ].
  - destruct (fromtimestamp_strftime v) as [s | e]; cbn; [ | exact H ].
    destruct (fanout_step_sends_only topic
                (Dict.set String.eqb "timestamp" (JStr s) payload) st1) as [H' _].
    exact (eq_trans H' H).
  - destruct (fanout_step_sends_only topic payload st1) as [H' _].
    exact (eq_trans H' H).
Qed.

End RouterFrame.

(** ** Inbound Router *)

Section RouterClaims.

Context {lib : Library}.

Lemma panic_step_run (sessions : list (conn * string)) (topic : string)
      (payload : dict) (report : json) (st : state) :
  active_sockets st = table_of sessions ->
  Dict.get String.eqb "report" payload = Some report ->
  panic_step topic payload st =
  (Ret tt, if json_eq_str report "panic"
           then close_all (map fst (bound_to topic sessions)) st
           else st).
Proof.
  intros Htable Hreport.
  unfold panic_step, Dict.getitem. rewrite Hreport.
  unfold bind at 1. cbn [lift ret].
  destruct (json_eq_str report "panic"); [ | reflexivity ].
  unfold bind, gets. rewrite Htable. apply panic_loop.
Qed.

Lemma panic_step_absent_report (topic : string) (payload : dict) (st : state) :
  Dict.get String.eqb "report" payload = None ->
  incoming_message_processing topic payload st = (Raise KeyError, st).
Proof.
  intros H. unfold incoming_message_processing, panic_step, Dict.getitem.
  rewrite H. reflexivity.
Qed.

Lemma close_all_closed_in (ws : list conn) (st : state) (w : conn) :
  In w ws -> is_open w (close_all ws st) = false.
Proof.
  intros Hin. rewrite close_all_is_open.
  assert (E : existsb (Nat.eqb w) ws = true).
  { apply existsb_exists. exists w. split; [ exact Hin | apply Nat.eqb_refl ]. }
  rewrite E. apply andb_false_r.
Qed.

(** Steps 2 and 3 close nothing. *)
Lemma steps_2_3_close_nothing (topic : string) (payload : dict) (st : state) :
  closes (trace (snd ((payload' <- timestamp_step payload ;;
                       fanout_step topic payload') st))) = closes (trace st) /\
  closed (snd ((payload' <- timestamp_step payload ;;
                fanout_step topic payload') st)) = closed st.
Proof.
  unfold bind. rewrite timestamp_step_pure.
  assert (Hsends : forall p,
             closes (trace (snd (fanout_step topic p st))) = closes (trace st) /\
             closed (snd (fanout_step topic p st)) = closed st).
  { intros p. destruct (fanout_step_sends_only topic p st) as (_ & _ & Hc & ws & Ht).
    split; [ | exact Hc ].
    rewrite Ht, closes_app, closes_map_EvSend. apply app_nil_r. }
  destruct (Dict.get String.eqb "timestamp" payload) as [v | ].
  - destruct (fromtimestamp_strftime v) as [s | e].
    + apply Hsends.
    + split; reflexivity.
  - apply Hsends.
Qed.

(** C3, amended: with a [report] field whose value is not "panic",
    Step 1 raises nothing and closes nothing, and the router goes on
    to Steps 2 and 3: its outcome is theirs.  (Without a [report]
    field, [payload['report']] raises KeyError and neither step is
    taken.) *)
Theorem C3_report_other_than_panic_runs_steps_2_and_3
        (topic : string) (payload : dict) (report : json) (st : state) :
  Dict.get String.eqb "report" payload = Some report ->
  json_eq_str report "panic" = false ->
  panic_step topic payload st = (Ret tt, st) /\
  incoming_message_processing topic payload st =
    (payload' <- timestamp_step payload ;; fanout_step topic payload') st /\
  closes (trace (snd (incoming_message_processing topic payload st))) =
    closes (trace st) /\
  closed (snd (incoming_message_processing topic payload st)) = closed st.
Proof.
  intros Hreport Hother.
  assert (Hpanic : panic_step topic payload st = (Ret tt, st)).
  { unfold panic_step, Dict.getitem. rewrite Hreport.
    unfold bind. cbn [lift ret]. rewrite Hother. reflexivity. }
  assert (Hrun : incoming_message_processing topic payload st =
                 (payload' <- timestamp_step payload ;; fanout_step topic payload') st).
  { unfold incoming_message_processing. unfold bind at 1. rewrite Hpanic. reflexivity. }
  split; [ exact Hpanic | ]. split; [ exact Hrun | ].
  rewrite Hrun. apply steps_2_3_close_nothing.
Qed.

(** C4, amended: for a bus message whose payload has a [report]
    field, whose timestamp is absent or can be converted, and whose
    topic is the subscribe topic of exactly N sessions, all with open
    connections (so that [report] is "panic" only when N is 0), the
    router returns without error after sending the serialized,
    timestamp-normalized payload to the connections of those N
    sessions, in the order of the table, and to no other connection;
    with N = 0 nothing is sent. *)
Theorem C4_fanout_reaches_exactly_the_bound_sessions
        (sessions : list (conn * string)) (topic : string)
        (payload payload' : dict) (report : json) (st : state) :
  active_sockets st = table_of sessions ->
  Dict.get String.eqb "report" payload = Some report ->
  (json_eq_str report "panic" = true -> bound_to topic sessions = []) ->
  timestamp_step payload st = (Ret payload', st) ->
  (forall w, In w (map fst (bound_to topic sessions)) -> is_open w st = true) ->
  incoming_message_processing topic payload st =
    (Ret tt, send_all (json_dumps (JObj payload'))
                      (map fst (bound_to topic sessions)) st) /\
  sends (trace (snd (incoming_message_processing topic payload st))) =
    (sends (trace st) ++
     map (fun s => (fst s, json_dumps (JObj payload'))) (bound_to topic sessions))%list /\
  List.length (map fst (bound_to topic sessions)) = List.length (bound_to topic sessions).
Proof.
  intros Htable Hreport Hpanic Hts Hopen.
  assert (Hstep1 : panic_step topic payload st = (Ret tt, st)).
  { rewrite (panic_step_run sessions topic payload report st Htable Hreport).
    destruct (json_eq_str report "panic"); [ | reflexivity ].
    rewrite (Hpanic eq_refl). reflexivity. }
  assert (Hrun : incoming_message_processing topic payload st =
                 (Ret tt, send_all (json_dumps (JObj payload'))
                                   (map fst (bound_to topic sessions)) st)).
  { unfold incoming_message_processing. unfold bind at 1. rewrite Hstep1.
    unfold bind at 1. rewrite Hts.
    unfold fanout_step, bind, gets. rewrite Htable.
    apply fanout_loop_open, Hopen. }
  split; [ exact Hrun | ]. split; [ | apply length_map ].
  rewrite Hrun. cbn [snd].
  rewrite send_all_trace, sends_app, sends_map_EvSend, map_map. reflexivity.
Qed.

(** C5: for a payload whose [report] is "panic" and a topic T, Step 1
    calls [close()] on the connection of every session of the table
    bound to T, in the order of the table, and on no other: after the
    router has run, the closes made are exactly those, the connections
    of the sessions bound to T are closed, and every other connection
    is as it was. *)
Theorem C5_panic_closes_every_bound_session
        (sessions : list (conn * string)) (topic : string)
        (payload : dict) (st : state) :
  active_sockets st = table_of sessions ->
  Dict.get String.eqb "report" payload = Some (JStr "panic") ->
  panic_step topic payload st =
    (Ret tt, close_all (map fst (bound_to topic sessions)) st) /\
  closes (trace (snd (incoming_message_processing topic payload st))) =
    (closes (trace st) ++ map fst (bound_to topic sessions))%list /\
  (forall w,
      is_open w (snd (incoming_message_processing topic payload st)) =
      is_open w st && negb (existsb (Nat.eqb w) (map fst (bound_to topic sessions)))).
Proof.
  intros Htable Hreport.
  pose proof (panic_step_run sessions topic payload _ st Htable Hreport) as Hstep1.
  cbn [json_eq_str String.eqb Ascii.eqb Bool.eqb] in Hstep1.
  split; [ exact Hstep1 | ].
  set (st1 := close_all (map fst (bound_to topic sessions)) st) in *.
  assert (Hrun : incoming_message_processing topic payload st =
                 (payload' <- timestamp_step payload ;; fanout_step topic payload') st1).
  { unfold incoming_message_processing. unfold bind at 1. rewrite Hstep1. reflexivity. }
  rewrite Hrun.
  destruct (steps_2_3_close_nothing topic payload st1) as [Hcloses Hclosed].
  split.
  - rewrite Hcloses. unfold st1.
    rewrite close_all_trace, closes_app, closes_map_EvClose. reflexivity.
  - intros w. rewrite <- close_all_is_open. fold st1.
    unfold is_open, closed_kind. rewrite Hclosed. reflexivity.
Qed.

(** C8 fails on the code: when the payload's [report] is "panic" and
    at least one session is bound to the topic, Step 1 closes the
    bound connections, the table still holds their entries in Step 3,
    and the first send raises [ConnectionClosed] out of the router;
    nothing is sent. *)
Theorem C8_send_after_panic_close_raises
        (sessions : list (conn * string)) (topic : string)
        (payload payload' : dict) (st : state) :
  active_sockets st = table_of sessions ->
  Dict.get String.eqb "report" payload = Some (JStr "panic") ->
  timestamp_step payload st = (Ret payload', st) ->
  bound_to topic sessions <> [] ->
  exists k,
    incoming_message_processing topic payload st =
    (Raise (closed_exn k), close_all (map fst (bound_to topic sessions)) st).
Proof.
  intros Htable Hreport Hts Hbound.
  pose proof (panic_step_run sessions topic payload _ st Htable Hreport) as Hstep1.
  cbn [json_eq_str String.eqb Ascii.eqb Bool.eqb] in Hstep1.
  set (st1 := close_all (map fst (bound_to topic sessions)) st) in *.
  destruct (fanout_loop_closed topic (json_dumps (JObj payload')) sessions st1 Hbound)
    as [k Hk].
  { intros w Hw. apply close_all_closed_in, Hw. }
  assert (Ht1 : active_sockets st1 = table_of sessions).
  { unfold st1. rewrite close_all_table. exact Htable. }
  exists k.
  unfold incoming_message_processing. unfold bind at 1. rewrite Hstep1.
  unfold bind at 1. rewrite timestamp_step_pure.
  rewrite timestamp_step_pure in Hts.
  destruct (Dict.get String.eqb "timestamp" payload) as [v | ].
  - destruct (fromtimestamp_strftime v) as [s | e]; [ | discriminate ].
    injection Hts as <-.
    unfold fanout_step, bind, gets. rewrite Ht1.
    exact Hk.
  - injection Hts as <-.
    unfold fanout_step, bind, gets. rewrite Ht1.
    exact Hk.
Qed.

End RouterClaims.

(** ** Timestamp normalization *)

Section Timestamp.

Context {lib : Library}.

(** C6, amended: a payload without [timestamp] is left as it is; a
    payload whose [timestamp] the [datetime] module converts (a number
    at epoch second [t] whose local time, and the local time a day
    earlier, are valid dates) has that field, in its place, rewritten
    to the local calendar time of [t] written by '%Y-%m-%d %H:%M:%S',
    which from the year 1000 on has the form YYYY-MM-DD HH:MM:SS (an
    earlier year is written without padding), and every other field is
    kept; otherwise the conversion's exception leaves the router before
    anything is forwarded, which for a [timestamp] that is a string,
    [None], a list or a dictionary is TypeError. *)
Theorem C6_timestamp_rewritten_or_conversion_raises (payload : dict) (st : state) :
  match Dict.get String.eqb "timestamp" payload with
  | None => timestamp_step payload st = (Ret payload, st)
  | Some v =>
      match fromtimestamp_strftime v with
      | Ok s =>
          timestamp_step payload st =
            (Ret (Dict.set String.eqb "timestamp" (JStr s) payload), st) /\
          (exists t, epoch_seconds v = Ok t /\
                     fromtimestamp t = Ok (t + utcoffset t) /\
                     s = Calendar.strftime (t + utcoffset t) /\
                     Calendar.has_shape
                       (if 1000 <=? Calendar.year (t + utcoffset t)
                        then "dddd-dd-dd dd:dd:dd"
                        else Calendar.year_pattern (Calendar.year (t + utcoffset t))
                             ++ "-dd-dd dd:dd:dd") s = true) /\
          Dict.keys (Dict.set String.eqb "timestamp" (JStr s) payload) =
            Dict.keys payload /\
          (forall k,
              Dict.get String.eqb k (Dict.set String.eqb "timestamp" (JStr s) payload) =
              if String.eqb k "timestamp" then Some (JStr s)
              else Dict.get String.eqb k payload)
      | Err e =>
          timestamp_step payload st = (Raise e, st) /\
          match v with
          | JNull | JStr _ | JList _ | JObj _ => e = TypeError
          | JBool _ | JInt _ => e = RangeError
          | JFloat _ => True
          end
      end
  end.
Proof.
  rewrite timestamp_step_pure.
  destruct (Dict.get String.eqb "timestamp" payload) as [v | ] eqn:Hget;
    [ | reflexivity ].
  destruct (fromtimestamp_strftime v) as [s | e] eqn:Hconv.
  - split; [ reflexivity | ].
    split; [ | split ].
    + unfold fromtimestamp_strftime in Hconv.
      destruct (epoch_seconds v) as [t | e]; [ | discriminate ].
      destruct (fromtimestamp t) as [local | e] eqn:Hlocal; [ | discriminate ].
      injection Hconv as <-.
      destruct (fromtimestamp_ok t local Hlocal) as [-> Hvalid].
      exists t. split; [ reflexivity | ]. split; [ exact Hlocal | ].
      split; [ reflexivity | ].
      pose proof (strftime_shape _ Hvalid) as Hshape.
      destruct (Z.leb_spec 1000 (Calendar.year (t + utcoffset t))) as [Hy | _].
      * rewrite (year_pattern_four_digits _ Hy) in Hshape. exact Hshape.
      * exact Hshape.
    + apply keys_set. unfold Dict.mem. rewrite Hget. reflexivity.
    + intros k. apply get_set.
  - split; [ reflexivity | ].
    unfold fromtimestamp_strftime in Hconv.
    destruct v as [ | b | z | x | x | l | o ]; cbn [epoch_seconds] in Hconv;
      try exact I; try congruence.
    + destruct (fromtimestamp (if b then 1 else 0)) as [local | e'] eqn:Hlocal;
        [ discriminate | ].
      injection Hconv as <-. revert Hlocal. unfold fromtimestamp.
      repeat match goal with
             | |- context [if ?c then _ else _] => destruct c
             end; congruence.
    + destruct (fromtimestamp z) as [local | e'] eqn:Hlocal; [ discriminate | ].
      injection Hconv as <-. revert Hlocal. unfold fromtimestamp.
      repeat match goal with
             | |- context [if ?c then _ else _] => destruct c
             end; congruence.
Qed.

End Timestamp.

(** The example of the specification, with UTC as the local time, and
    the ends of the calendar. *)
Example timestamp_1700000000_utc :
  fromtimestamp_strftime (lib := Sample.library) (JInt 1700000000) =
  Ok "2023-11-14 22:13:20".
Proof. reflexivity. Qed.

Example timestamp_year_999_utc :
  fromtimestamp_strftime (lib := Sample.library) (JInt (-30610224001)) =
  Ok "999-12-31 23:59:59".
Proof. reflexivity. Qed.

Example timestamp_first_day_utc :
  fromtimestamp_strftime (lib := Sample.library) (JInt (-62135596800)) =
    Err RangeError /\
  fromtimestamp_strftime (lib := Sample.library) (JInt (-62135510400)) =
    Ok "1-01-02 00:00:00".
Proof. split; reflexivity. Qed.

Example timestamp_last_second_utc :
  fromtimestamp_strftime (lib := Sample.library) (JInt 253402300799) =
    Ok "9999-12-31 23:59:59" /\
  fromtimestamp_strftime (lib := Sample.library) (JInt 253402300800) =
    Err RangeError.
Proof. split; reflexivity. Qed.

(** ** Outbound Relay *)

Section Relay.

Context {lib : Library}.

Lemma relay_handles_closed (k : close_kind) : relay_handles (closed_exn k) = true.
Proof. destruct k; reflexivity. Qed.

Lemma entries_of_removed (w : conn) (table : list entry) :
  entries_of w (without w table) = [].
Proof.
  unfold entries_of, without. induction table as [ | e table IH]; [ reflexivity | ].
  cbn [filter]. destruct (Dict.mem key_eqb (KSock w) e) eqn:E; cbn [negb filter].
  - exact IH.
  - rewrite E. exact IH.
Qed.

(** The three cases of a turn of the loop. *)
Lemma receive_data_nil (w : conn) (topic : string) (st : state) :
  receive_data w topic [] st =
  match closed_kind w st with
  | Some _ => (Ret tt, with_active_sockets (without w (active_sockets st)) st)
  | None => (Pending, st)
  end.
Proof.
  cbn [receive_data]. unfold try_except, bind, recv.
  destruct (closed_kind w st) as [k | ]; [ | reflexivity ].
  rewrite relay_handles_closed. reflexivity.
Qed.

Lemma receive_data_closed (w : conn) (topic : string) (k : close_kind)
      (rest : list recv_event) (st : state) :
  receive_data w topic (RecvClosed k :: rest) st =
  (Ret tt, with_active_sockets (without w (active_sockets st)) (with_closed w k st)).
Proof.
  cbn [receive_data]. unfold try_except, bind, recv.
  rewrite relay_handles_closed. reflexivity.
Qed.

Lemma receive_data_frame (w : conn) (topic : string) (f : frame)
      (rest : list recv_event) (st : state) :
  receive_data w topic (RecvFrame f :: rest) st =
  match json_loads f with
  | Ok data =>
      match publish_error data with
      | None => receive_data w topic rest (emit (EvPublish topic data) st)
      | Some e => (Raise e, st)
      end
  | Err e =>
      if relay_handles e
      then (Ret tt, with_active_sockets (without w (active_sockets st)) st)
      else (Raise e, st)
  end.
Proof.
  cbn [receive_data]. unfold try_except, bind, publish_payload.
  destruct (json_loads f) as [d | e]; cbn [lift ret raise].
  - destruct (publish_error d); reflexivity.
  - destruct (relay_handles e); reflexivity.
Qed.

(** Whenever the relay returns, no entry of the table holds its
    connection any more. *)
Lemma relay_return_removes (w : conn) (topic : string) (inputs : list recv_event)
      (st : state) :
  fst (receive_data w topic inputs st) = Ret tt ->
  entries_of w (active_sockets (snd (receive_data w topic inputs st))) = [].
Proof.
  revert st. induction inputs as [ | [f | k] rest IH]; intros st.
  - rewrite receive_data_nil.
    destruct (closed_kind w st); [ | discriminate ].
    intros _. apply entries_of_removed.
  - rewrite receive_data_frame.
    destruct (json_loads f) as [d | e].
    + destruct (publish_error d); [ discriminate | apply IH ].
    + destruct (relay_handles e); [ | discriminate ].
      intros _. apply entries_of_removed.
  - rewrite receive_data_closed. intros _. apply entries_of_removed.
Qed.

(** The relay never adds an entry. *)
Lemma relay_adds_nothing (w : conn) (topic : string) (inputs : list recv_event)
      (st : state) (e : entry) :
  In e (active_sockets (snd (receive_data w topic inputs st))) ->
  In e (active_sockets st).
Proof.
  revert st. induction inputs as [ | [f | k] rest IH]; intros st.
  - rewrite receive_data_nil.
    destruct (closed_kind w st); [ | exact (fun H => H) ].
    cbn. unfold without. intros H. apply filter_In in H. apply H.
  - rewrite receive_data_frame.
    destruct (json_loads f) as [d | e'].
    + destruct (publish_error d); [ exact (fun H => H) | ].
      intros H. apply IH in H. exact H.
    + destruct (relay_handles e'); [ | exact (fun H => H) ].
      cbn. unfold without. intros H. apply filter_In in H. apply H.
  - rewrite receive_data_closed.
    cbn. unfold without. intros H. apply filter_In in H. apply H.
Qed.

(** C2 fails on the code: a frame after the handshake on which
    [json.loads] raises JSONDecodeError ends the relay with that
    exception, which the handler for (ConnectionClosed, TypeError)
    does not take; the table is left as it was, the session's entry
    still in it. *)
Theorem C2_decode_error_ends_relay_without_removal
        (w : conn) (topic : string) (f : frame) (rest : list recv_event) (st : state) :
  json_loads f = Err JSONDecodeError ->
  receive_data w topic (RecvFrame f :: rest) st = (Raise JSONDecodeError, st).
Proof.
  intros H. rewrite receive_data_frame, H. reflexivity.
Qed.

End Relay.

(** ** Connection Handshake Handler *)

Section Handshake.

Context {lib : Library}.

(** The state in which the handshake reads its first frame. *)
Lemma handshake_frame (w : conn) (f : frame) (rest : list recv_event) (st : state) :
  handshake w (RecvFrame f :: rest) st =
  let st0 := emit EvBegin (with_wsocket (Some w) st) in
  match json_loads f with
  | Err e => (Raise e, st0)
  | Ok data =>
      match json_getitem data "id" with
      | Err KeyError =>
          (Raise KeyError, emit (EvPrint "Client did not provide an ID string") st0)
      | Err e => (Raise e, st0)
      | Ok (JStr id_string) =>
          (Ret (id_string, rest),
           with_active_sockets
             (active_sockets st ++ [make_entry w (subscriber_string id_string)])
             (emit (EvSubscribe (subscriber_string id_string)) st0))
      | Ok _ => (Raise AttributeError, st0)
      end
  end.
Proof.
  unfold handshake, begin, try_except, bind, recv, modify. cbn [ret].
  destruct (json_loads f) as [data | e]; [ | reflexivity ].
  cbn [lift ret].
  destruct (json_getitem data "id") as [[ | | | | id_string | | ] | []]; reflexivity.
Qed.

Lemma handshake_closed (w : conn) (k : close_kind) (rest : list recv_event) (st : state) :
  handshake w (RecvClosed k :: rest) st =
  (Raise (match k with
          | CloseOK => UnboundLocalError
          | CloseError => ConnectionClosedError
          end),
   with_closed w k (emit EvBegin (with_wsocket (Some w) st))).
Proof. destruct k; reflexivity. Qed.

Lemma handshake_nil (w : conn) (st : state) :
  handshake w [] st =
  let st0 := emit EvBegin (with_wsocket (Some w) st) in
  match closed_kind w st with
  | Some CloseOK => (Raise UnboundLocalError, st0)
  | Some CloseError => (Raise ConnectionClosedError, st0)
  | None => (Pending, st0)
  end.
Proof.
  unfold handshake, begin, try_except, bind, recv, modify, closed_kind.
  cbn [closed emit with_wsocket ret].
  destruct (Dict.get Nat.eqb w (closed st)) as [[ | ] | ]; reflexivity.
Qed.

(** A handshake that does not succeed leaves the table as it was; one
    that succeeds appends one entry, made of the connection and the
    derived subscribe topic. *)
Lemma handshake_table (w : conn) (inputs : list recv_event) (st : state) :
  match handshake w inputs st with
  | (Ret (id_string, _), st') =>
      active_sockets st' =
      (active_sockets st ++ [make_entry w (subscriber_string id_string)])%list
  | (_, st') => active_sockets st' = active_sockets st
  end.
Proof.
  destruct inputs as [ | [f | k] rest].
  - rewrite handshake_nil. cbv zeta.
    destruct (closed_kind w st) as [[ | ] | ]; reflexivity.
  - rewrite handshake_frame. cbv zeta.
    destruct (json_loads f) as [data | e]; [ | reflexivity ].
    destruct (json_getitem data "id") as [[ | | | | id_string | | ] | []]; reflexivity.
  - rewrite handshake_closed. reflexivity.
Qed.

(** C7 fails on the code: when the connection is closed (normally)
    before any frame arrives, [recv()] raises ConnectionClosedOK, the
    handler passes, and [json.loads(data)] then reads a name that was
    never bound: UnboundLocalError leaves [wsg].  No session is
    inserted. *)
Theorem C7_close_before_first_frame_raises_out_of_wsg
        (w : conn) (rest : list recv_event) (st : state) :
  wsg w (RecvClosed CloseOK :: rest) st =
    (Raise UnboundLocalError,
     with_closed w CloseOK (emit EvBegin (with_wsocket (Some w) st))) /\
  active_sockets (snd (wsg w (RecvClosed CloseOK :: rest) st)) = active_sockets st.
Proof.
  unfold wsg, bind. rewrite handshake_closed. split; reflexivity.
Qed.


End Handshake.

(** ** After a panic: the relays remove the entries *)

Lemma filter_twice {A} (p q : A -> bool) (l : list A) :
  filter q (filter p l) = filter (fun x => p x && q x) l.
Proof.
  induction l as [ | x l IH]; [ reflexivity | ].
  cbn [filter]. destruct (p x); cbn [filter andb].
  - destruct (q x); [ f_equal | ]; exact IH.
  - exact IH.
Qed.

Lemma filter_table_of (p : entry -> bool) (sessions : list (conn * string)) :
  filter p (table_of sessions) =
  table_of (filter (fun s => p (make_entry (fst s) (snd s))) sessions).
Proof.
  induction sessions as [ | s sessions IH]; [ reflexivity | ].
  cbn [table_of map filter]. fold (table_of sessions).
  destruct (p (make_entry (fst s) (snd s))); cbn [map]; rewrite IH; reflexivity.
Qed.

Lemma not_held_by_any (bs : list (conn * string)) (s : conn * string) :
  forallb (fun b => negb (Dict.mem key_eqb (KSock (fst b)) (make_entry (fst s) (snd s)))) bs =
  negb (existsb (Nat.eqb (fst s)) (map fst bs)).
Proof.
  induction bs as [ | b bs IH]; [ reflexivity | ].
  cbn [forallb existsb map]. rewrite IH, mem_make_entry_conn, negb_orb.
  rewrite (Nat.eqb_sym (fst b) (fst s)). reflexivity.
Qed.

Section AfterPanic.

Context {lib : Library}.

(** Relays resumed on closed connections filter their entries out of
    the table and change nothing else of it. *)
Lemma resume_relays_table (publisher_topic : conn -> string)
      (bs : list (conn * string)) (st : state) :
  (forall s, In s bs -> is_open (fst s) st = false) ->
  active_sockets (resume_relays publisher_topic bs st) =
    filter (fun e => forallb (fun b => negb (Dict.mem key_eqb (KSock (fst b)) e)) bs)
           (active_sockets st) /\
  closed (resume_relays publisher_topic bs st) = closed st.
Proof.
  revert st. induction bs as [ | b bs IH]; intros st Hclosed.
  - cbn. split; [ | reflexivity ].
    induction (active_sockets st) as [ | e l IHl]; [ reflexivity | ].
    cbn. f_equal. exact IHl.
  - change (resume_relays publisher_topic (b :: bs) st)
      with (resume_relays publisher_topic bs
              (snd (receive_data (fst b) (publisher_topic (fst b)) [] st))).
    rewrite receive_data_nil.
    assert (Hb : is_open (fst b) st = false) by (apply Hclosed; left; reflexivity).
    unfold is_open in Hb.
    destruct (closed_kind (fst b) st) as [k | ]; [ | discriminate ].
    cbn [snd].
    destruct (IH (with_active_sockets (without (fst b) (active_sockets st)) st))
      as [Htable Hcl].
    { intros s Hs. apply (Hclosed s). right. exact Hs. }
    split; [ | exact Hcl ].
    rewrite Htable. cbn [active_sockets with_active_sockets].
    unfold without. rewrite filter_twice. reflexivity.
Qed.

Lemma bound_sessions_closed_after_panic
      (sessions : list (conn * string)) (topic : string) (payload : dict) (st : state) :
  active_sockets st = table_of sessions ->
  Dict.get String.eqb "report" payload = Some (JStr "panic") ->
  forall s, In s (bound_to topic sessions) ->
            is_open (fst s) (snd (incoming_message_processing topic payload st)) = false.
Proof.
  intros Htable Hreport s Hs.
  pose proof (panic_step_run sessions topic payload _ st Htable Hreport) as Hstep1.
  cbn [json_eq_str String.eqb Ascii.eqb Bool.eqb] in Hstep1.
  set (st1 := close_all (map fst (bound_to topic sessions)) st) in *.
  assert (Hrun : incoming_message_processing topic payload st =
                 (payload' <- timestamp_step payload ;; fanout_step topic payload') st1).
  { unfold incoming_message_processing. unfold bind at 1. rewrite Hstep1. reflexivity. }
  rewrite Hrun.
  destruct (steps_2_3_close_nothing topic payload st1) as [_ Hclosed].
  unfold is_open, closed_kind. rewrite Hclosed.
  apply (close_all_closed_in _ st (fst s)). apply in_map. exact Hs.
Qed.

Lemma no_entry_for_topic_left (topic : string) (sessions l : list (conn * string)) :
  (forall s, In s l -> In s sessions) ->
  entries_for topic
    (table_of (filter (fun s => negb (existsb (Nat.eqb (fst s))
                                               (map fst (bound_to topic sessions)))) l)) = [].
Proof.
  induction l as [ | s l IH]; intros Hsub; [ reflexivity | ].
  cbn [filter].
  assert (IH' := IH (fun s' H => Hsub s' (or_intror H))).
  match goal with
  | |- context [if negb ?c then _ else _] => destruct c eqn:E
  end; cbn [negb]; [ exact IH' | ].
  cbn [table_of map]. fold (table_of (filter (fun s => negb (existsb (Nat.eqb (fst s))
                                               (map fst (bound_to topic sessions)))) l)).
  unfold entries_for in *. cbn [filter].
  rewrite mem_make_entry_topic.
  destruct (String.eqb topic (snd s)) eqn:Et; [ | exact IH' ].
  exfalso.
  assert (Hin : In s (bound_to topic sessions)).
  { unfold bound_to. apply filter_In. split.
    - apply Hsub. left. reflexivity.
    - rewrite String.eqb_sym. exact Et. }
  assert (Hex : existsb (Nat.eqb (fst s)) (map fst (bound_to topic sessions)) = true).
  { apply existsb_exists. exists (fst s). split.
    - apply in_map. exact Hin.
    - apply Nat.eqb_refl. }
  discriminate (eq_trans (eq_sym Hex) E).
Qed.

(** C9, amended: the panic handling closes connections and removes
    nothing: the router leaves the table as it was.  The entry of a
    session closed on a panic report is removed by that session's own
    relay, when its [recv()] raises ConnectionClosed; once the relays
    of the sessions bound to the topic have done so, the table holds
    the sessions on other connections and no entry for that topic. *)
Theorem C9_panic_entries_are_removed_by_the_relays
        (sessions : list (conn * string)) (topic : string) (payload : dict)
        (publisher_topic : conn -> string) (st : state) :
  active_sockets st = table_of sessions ->
  Dict.get String.eqb "report" payload = Some (JStr "panic") ->
  active_sockets (snd (incoming_message_processing topic payload st)) =
    active_sockets st /\
  active_sockets
    (resume_relays publisher_topic (bound_to topic sessions)
       (snd (incoming_message_processing topic payload st))) =
    table_of (filter (fun s => negb (existsb (Nat.eqb (fst s))
                                             (map fst (bound_to topic sessions))))
                     sessions) /\
  entries_for topic
    (active_sockets
       (resume_relays publisher_topic (bound_to topic sessions)
          (snd (incoming_message_processing topic payload st)))) = [].
Proof.
  intros Htable Hreport.
  pose proof (router_keeps_table topic payload st) as Hkeep.
  split; [ exact Hkeep | ].
  destruct (resume_relays_table publisher_topic (bound_to topic sessions)
              (snd (incoming_message_processing topic payload st))) as [Hrelays _].
  { apply bound_sessions_closed_after_panic; assumption. }
  assert (Hfinal :
            active_sockets
              (resume_relays publisher_topic (bound_to topic sessions)
                 (snd (incoming_message_processing topic payload st))) =
            table_of (filter (fun s => negb (existsb (Nat.eqb (fst s))
                                                     (map fst (bound_to topic sessions))))
                             sessions)).
  { rewrite Hrelays, Hkeep, Htable, filter_table_of. f_equal.
    apply filter_ext. intros s. apply not_held_by_any. }
  split; [ exact Hfinal | ].
  rewrite Hfinal. apply no_entry_for_topic_left. intros s H. exact H.
Qed.

End AfterPanic.

(** ** The shape of the table is invariant *)

Section TableShape.

Context {lib : Library}.

(** One turn of the loop of [receive_data], as the source has it: the
    [try] around [recv()] and [json.loads], the handler that removes
    the entries and breaks, the publication, and the next turn. *)
Lemma receive_data_turn (w : conn) (topic : string) (inputs : list recv_event)
      (st : state) :
  receive_data w topic inputs st =
  (r <- try_except (' (f, rest) <- recv w inputs ;;
                    data <- lift (json_loads f) ;;
                    ret (Some (data, rest)))
                   relay_handles
                   (fun _ => remove_entries w ;; ret None) ;;
   match r with
   | None => ret tt
   | Some (data, rest) => publish_payload data topic ;; receive_data w topic rest
   end) st.
Proof.
  destruct inputs as [ | [f | k] rest].
  - rewrite receive_data_nil. unfold try_except, bind, recv.
    destruct (closed_kind w st) as [k | ]; [ | reflexivity ].
    rewrite relay_handles_closed. reflexivity.
  - rewrite receive_data_frame. unfold try_except, bind, recv, publish_payload.
    destruct (json_loads f) as [d | e]; cbn [lift ret raise].
    + destruct (publish_error d); reflexivity.
    + destruct (relay_handles e); reflexivity.
  - rewrite receive_data_closed. unfold try_except, bind, recv.
    rewrite relay_handles_closed. reflexivity.
Qed.

(** The relay keeps a table of session entries a table of session
    entries. *)
Lemma relay_keeps_shape (w : conn) (topic : string) (inputs : list recv_event)
      (st : state) (sessions : list (conn * string)) :
  active_sockets st = table_of sessions ->
  exists sessions',
    active_sockets (snd (receive_data w topic inputs st)) = table_of sessions'.
Proof.
  revert st. induction inputs as [ | [f | k] rest IH]; intros st Htable.
  - rewrite receive_data_nil. destruct (closed_kind w st).
    + cbn. rewrite Htable. unfold without. rewrite filter_table_of. eexists. reflexivity.
    + exists sessions. exact Htable.
  - rewrite receive_data_frame. destruct (json_loads f) as [d | e].
    + destruct (publish_error d); [ exists sessions; exact Htable | ].
      apply IH. exact Htable.
    + destruct (relay_handles e).
      * cbn. rewrite Htable. unfold without. rewrite filter_table_of.
        eexists. reflexivity.
      * exists sessions. exact Htable.
  - rewrite receive_data_closed. cbn. rewrite Htable. unfold without.
    rewrite filter_table_of. eexists. reflexivity.
Qed.

(** So does a whole connection, from its handshake to the end of its
    relay; with [router_keeps_table], every table that the gateway
    reaches from the empty one is a table of session entries. *)
Lemma wsg_keeps_shape (w : conn) (inputs : list recv_event)
      (st : state) (sessions : list (conn * string)) :
  active_sockets st = table_of sessions ->
  exists sessions', active_sockets (snd (wsg w inputs st)) = table_of sessions'.
Proof.
  intros Htable. unfold wsg, bind.
  pose proof (handshake_table w inputs st) as H.
  destruct (handshake w inputs st) as [[[id_string rest] | e | ] st1]; cbn [snd].
  - apply (relay_keeps_shape w id_string rest st1
             (sessions ++ [(w, subscriber_string id_string)])).
    rewrite H, Htable. unfold table_of. rewrite map_app. reflexivity.
  - exists sessions. rewrite H. exact Htable.
  - exists sessions. rewrite H. exact Htable.
Qed.

End TableShape.

(** ** The claims at concrete inputs *)

Lemma C2_decode_error_witness :
  json_loads (Library := Sample.library) (Text "{") = Err JSONDecodeError /\
  receive_data (lib := Sample.library) 0%nat "to_arduino"
               [RecvFrame (Text "{"); RecvClosed CloseOK] Sample.gateway =
  (Raise JSONDecodeError, Sample.gateway).
Proof.
  split; [ reflexivity | ].
  apply (C2_decode_error_ends_relay_without_removal (lib := Sample.library)).
  reflexivity.
Defined.

(** After the decode error the entry of the connection is still in the
    table, where a closed connection would have had it removed. *)
Example relay_decode_error_entry_count :
  entries_of 0%nat
    (active_sockets
       (snd (receive_data (lib := Sample.library) 0%nat "to_arduino"
                          [RecvFrame (Text "{")] Sample.gateway))) =
  [make_entry 0%nat "from_arduino"] /\
  entries_of 0%nat
    (active_sockets
       (snd (receive_data (lib := Sample.library) 0%nat "to_arduino"
                          [RecvClosed CloseOK] Sample.gateway))) = [].
Proof. split; reflexivity. Qed.

(** C3, as the specification words it, fails: a payload without a
    [report] field makes the router raise KeyError before the timestamp
    is normalized and before anything is sent. *)
Lemma C3_absent_report_raises_KeyError :
  Dict.get String.eqb "report" [("value", JInt 1); ("timestamp", JInt 1700000000)] = None /\
  incoming_message_processing (lib := Sample.library) "from_arduino"
    [("value", JInt 1); ("timestamp", JInt 1700000000)] Sample.gateway =
  (Raise KeyError, Sample.gateway).
Proof. split; reflexivity. Qed.

Lemma C3_report_other_than_panic_witness :
  incoming_message_processing (lib := Sample.library) "from_arduino"
    Sample.report_payload Sample.gateway =
  (payload' <- timestamp_step (lib := Sample.library) Sample.report_payload ;;
   fanout_step (lib := Sample.library) "from_arduino" payload') Sample.gateway.
Proof.
  exact (proj1 (proj2 (C3_report_other_than_panic_runs_steps_2_and_3
                         (lib := Sample.library) "from_arduino" Sample.report_payload
                         (JStr "digital_input") Sample.gateway eq_refl eq_refl))).
Defined.

(** C4, as the specification words it, fails: a message without a
    [report] field reaches none of the two sessions bound to its topic,
    and with no session bound to its topic it is not dropped silently:
    KeyError is raised. *)
Lemma C4_message_without_report_is_not_delivered :
  List.length (bound_to "from_arduino" Sample.sessions) = 2%nat /\
  sends (trace (snd (incoming_message_processing (lib := Sample.library)
                       "from_arduino" [("value", JInt 1)] Sample.gateway))) = [] /\
  bound_to "from_nobody" Sample.sessions = [] /\
  fst (incoming_message_processing (lib := Sample.library)
         "from_nobody" [("value", JInt 1)] Sample.gateway) = Raise KeyError.
Proof. repeat split. Qed.

Lemma C4_fanout_witness :
  sends (trace (snd (incoming_message_processing (lib := Sample.library)
                       "from_arduino" Sample.report_payload Sample.gateway))) =
  [(0%nat, json_dumps (Library := Sample.library) (JObj Sample.normalized_payload));
   (1%nat, json_dumps (Library := Sample.library) (JObj Sample.normalized_payload))].
Proof.
  refine (proj1 (proj2 (C4_fanout_reaches_exactly_the_bound_sessions
                          (lib := Sample.library) Sample.sessions "from_arduino"
                          Sample.report_payload Sample.normalized_payload
                          (JStr "digital_input") Sample.gateway
                          eq_refl eq_refl _ eq_refl _))).
  - discriminate.
  - intros w _. reflexivity.
Defined.

Lemma C5_panic_witness :
  closes (trace (snd (incoming_message_processing (lib := Sample.library)
                        "from_arduino" Sample.panic_payload Sample.gateway))) =
  [0%nat; 1%nat].
Proof.
  exact (proj1 (proj2 (C5_panic_closes_every_bound_session
                         (lib := Sample.library) Sample.sessions "from_arduino"
                         Sample.panic_payload Sample.gateway eq_refl eq_refl))).
Defined.

(** C6, as the specification words it, fails: a [timestamp] that is not
    a number is not left untouched: the conversion raises TypeError and
    the payload reaches no session. *)
Lemma C6_non_numeric_timestamp_raises_TypeError :
  timestamp_step (lib := Sample.library)
    [("report", JStr "digital_input"); ("timestamp", JStr "soon")] Sample.gateway =
  (Raise TypeError, Sample.gateway) /\
  incoming_message_processing (lib := Sample.library) "from_arduino"
    [("report", JStr "digital_input"); ("timestamp", JStr "soon")] Sample.gateway =
  (Raise TypeError, Sample.gateway).
Proof. split; reflexivity. Qed.

Lemma C8_send_after_panic_close_witness :
  exists k,
    incoming_message_processing (lib := Sample.library) "from_arduino"
      Sample.panic_payload Sample.gateway =
    (Raise (closed_exn k), close_all [0%nat; 1%nat] Sample.gateway).
Proof.
  refine (C8_send_after_panic_close_raises
            (lib := Sample.library) Sample.sessions "from_arduino"
            Sample.panic_payload Sample.panic_payload Sample.gateway
            eq_refl eq_refl eq_refl _).
  discriminate.
Defined.

(** The router at the failing input of C8. *)
Example router_after_panic_close :
  incoming_message_processing (lib := Sample.library) "from_arduino"
    Sample.panic_payload Sample.gateway =
  (Raise ConnectionClosedOK,
   mkState (table_of Sample.sessions) (Some 2%nat)
           [(0%nat, CloseOK); (1%nat, CloseOK)]
           [EvClose 0%nat; EvClose 1%nat]).
Proof. reflexivity. Qed.

(** C9, as the specification words it, fails: after the router has
    handled a panic message, the table still holds the entries of the
    sessions bound to its topic. *)
Lemma C9_panic_leaves_the_entries_in_the_table :
  entries_for "from_arduino"
    (active_sockets
       (snd (incoming_message_processing (lib := Sample.library) "from_arduino"
               Sample.panic_payload Sample.gateway))) =
  [make_entry 0%nat "from_arduino"; make_entry 1%nat "from_arduino"] /\
  entries_for "from_arduino"
    (active_sockets
       (snd (incoming_message_processing (lib := Sample.library) "from_arduino"
               Sample.panic_payload Sample.gateway))) <> [].
Proof. split; [ reflexivity | discriminate ]. Qed.

Lemma C9_panic_entries_witness :
  active_sockets
    (resume_relays (lib := Sample.library) (fun _ => "to_arduino")
       (bound_to "from_arduino" Sample.sessions)
       (snd (incoming_message_processing (lib := Sample.library) "from_arduino"
               Sample.panic_payload Sample.gateway))) =
  [make_entry 2%nat "from_rpi"].
Proof.
  exact (proj1 (proj2 (C9_panic_entries_are_removed_by_the_relays
                         (lib := Sample.library) Sample.sessions "from_arduino"
                         Sample.panic_payload (fun _ => "to_arduino") Sample.gateway
                         eq_refl eq_refl))).
Defined.


(** ** The end-to-end scenario of the specification *)

(** Client A sends its id, then a command, then disconnects. *)
Example scenario_client :
  wsg (lib := Sample.library) 0%nat
    [RecvFrame (Sample.id_frame "to_device1"); RecvFrame (Text "{}"); RecvClosed CloseOK]
    initial =
  (Ret tt,
   mkState [] (Some 0%nat) [(0%nat, CloseOK)]
           [EvBegin; EvSubscribe "from_device1"; EvPublish "to_device1" (JObj [])]).
Proof. reflexivity. Qed.

(** The bus delivers a report while A is registered. *)
Example scenario_bus :
  sends (trace (snd (incoming_message_processing (lib := Sample.library) "from_device1"
                       [("report", JStr "value"); ("timestamp", JInt 1700000000)]
                       (mkState (table_of [(0%nat, "from_device1")]) (Some 0%nat) [] [])))) =
  [(0%nat, json_dumps (Library := Sample.library)
             (JObj [("report", JStr "value");
                    ("timestamp", JStr "2023-11-14 22:13:20")]))].
Proof. reflexivity. Qed.

(** * Further properties of the gateway *)

(** ** The relay: table, bus and websockets *)

Lemma publishes_app (tr tr' : list event) :
  publishes (tr ++ tr')%list = (publishes tr ++ publishes tr')%list.
Proof. unfold publishes. apply flat_map_app. Qed.

Lemma subscriptions_app (tr tr' : list event) :
  subscriptions (tr ++ tr')%list = (subscriptions tr ++ subscriptions tr')%list.
Proof. unfold subscriptions. apply flat_map_app. Qed.

Lemma without_nothing_held (w : conn) (table : list entry) :
  entries_of w table = [] -> without w table = table.
Proof.
  unfold entries_of, without. induction table as [ | e table IH]; [ reflexivity | ].
  cbn [filter]. destruct (Dict.mem key_eqb (KSock w) e); cbn [negb].
  - discriminate.
  - intros H. f_equal. apply IH, H.
Qed.

Lemma without_app (w : conn) (t1 t2 : list entry) :
  without w (t1 ++ t2)%list = (without w t1 ++ without w t2)%list.
Proof. unfold without. apply filter_app. Qed.

Lemma without_own_entry (w : conn) (sub : string) :
  without w [make_entry w sub] = [].
Proof.
  unfold without. cbn [filter]. rewrite mem_make_entry_conn, Nat.eqb_refl. reflexivity.
Qed.

Section RelayFacts.

Context {lib : Library}.

(** X1: the relay removes the entries that hold its connection, and
    only those, exactly when it returns; when it ends with an exception
    or waits for a frame, the table is as it was. *)
Theorem X1_relay_removes_its_entries_exactly_on_return
        (w : conn) (topic : string) (inputs : list recv_event) (st : state) :
  active_sockets (snd (receive_data w topic inputs st)) =
  match fst (receive_data w topic inputs st) with
  | Ret _ => without w (active_sockets st)
  | _ => active_sockets st
  end.
Proof.
  revert st. induction inputs as [ | [f | k] rest IH]; intros st.
  - rewrite receive_data_nil. destruct (closed_kind w st); reflexivity.
  - rewrite receive_data_frame. destruct (json_loads f) as [d | e].
    + destruct (publish_error d); [ reflexivity | ].
      apply (IH (emit (EvPublish topic d) st)).
    + destruct (relay_handles e); reflexivity.
  - rewrite receive_data_closed. reflexivity.
Qed.

(** The relay's calls: publications only. *)
Lemma relay_trace (w : conn) (topic : string) (inputs : list recv_event) (st : state) :
  trace (snd (receive_data w topic inputs st)) =
  (trace st ++ map (EvPublish topic) (relayed inputs))%list.
Proof.
  revert st. induction inputs as [ | [f | k] rest IH]; intros st.
  - rewrite receive_data_nil. cbn [relayed map].
    destruct (closed_kind w st); cbn; symmetry; apply app_nil_r.
  - rewrite receive_data_frame. cbn [relayed].
    destruct (json_loads f) as [d | e].
    + destruct (publish_error d).
      * cbn. symmetry. apply app_nil_r.
      * rewrite IH. cbn [trace emit map]. rewrite <- app_assoc. reflexivity.
    + cbn [map]. destruct (relay_handles e); cbn; symmetry; apply app_nil_r.
  - rewrite receive_data_closed. cbn. symmetry. apply app_nil_r.
Qed.

Lemma publishes_map_EvPublish (topic : string) (l : list json) :
  publishes (map (EvPublish topic) l) = map (fun d => (topic, d)) l.
Proof. induction l as [ | d l IH]; [ reflexivity | cbn; f_equal; exact IH ]. Qed.

Lemma sends_map_EvPublish (topic : string) (l : list json) :
  sends (map (EvPublish topic) l) = [].
Proof. induction l as [ | d l IH]; [ reflexivity | exact IH ]. Qed.

Lemma closes_map_EvPublish (topic : string) (l : list json) :
  closes (map (EvPublish topic) l) = [].
Proof. induction l as [ | d l IH]; [ reflexivity | exact IH ]. Qed.

Lemma subscriptions_map_EvPublish (topic : string) (l : list json) :
  subscriptions (map (EvPublish topic) l) = [].
Proof. induction l as [ | d l IH]; [ reflexivity | exact IH ]. Qed.

(** X2: the relay publishes the payloads of the frames it receives in
    the order of receipt, each under its publish topic, up to the first
    frame that [json.loads] rejects or on whose payload
    [publish_payload] raises (that call is outside the [try]: its
    exception ends the relay and no later frame is published), or to
    the closure; and it calls nothing else: it sends no frame, closes no
    connection and subscribes to nothing. *)
Theorem X2_relay_publishes_in_order_of_receipt
        (w : conn) (topic : string) (inputs : list recv_event) (st : state) :
  publishes (trace (snd (receive_data w topic inputs st))) =
    (publishes (trace st) ++ map (fun d => (topic, d)) (relayed inputs))%list /\
  sends (trace (snd (receive_data w topic inputs st))) = sends (trace st) /\
  closes (trace (snd (receive_data w topic inputs st))) = closes (trace st) /\
  subscriptions (trace (snd (receive_data w topic inputs st))) =
    subscriptions (trace st).
Proof.
  rewrite relay_trace.
  rewrite publishes_app, sends_app, closes_app, subscriptions_app.
  rewrite publishes_map_EvPublish, sends_map_EvPublish, closes_map_EvPublish,
    subscriptions_map_EvPublish.
  rewrite !app_nil_r. repeat split.
Qed.

(** An exception of [publish_payload] leaves the relay: nothing is
    published, the frames that follow are not read, and the entry stays
    in the table. *)
Lemma relay_publish_error (w : conn) (topic : string) (f : frame)
      (rest : list recv_event) (data : json) (e : exn) (st : state) :
  json_loads f = Ok data ->
  publish_error data = Some e ->
  receive_data w topic (RecvFrame f :: rest) st = (Raise e, st).
Proof.
  intros Hloads Herr. rewrite receive_data_frame, Hloads, Herr. reflexivity.
Qed.

Lemma relay_keeps_wsocket (w : conn) (topic : string) (inputs : list recv_event)
      (st : state) :
  wsocket (snd (receive_data w topic inputs st)) = wsocket st.
Proof.
  revert st. induction inputs as [ | [f | k] rest IH]; intros st.
  - rewrite receive_data_nil. destruct (closed_kind w st); reflexivity.
  - rewrite receive_data_frame. destruct (json_loads f) as [d | e].
    + destruct (publish_error d); [ reflexivity | ].
      apply (IH (emit (EvPublish topic d) st)).
    + destruct (relay_handles e); reflexivity.
  - rewrite receive_data_closed. reflexivity.
Qed.

Lemma relay_return_table (w : conn) (topic : string) (inputs : list recv_event)
      (st : state) :
  fst (receive_data w topic inputs st) = Ret tt ->
  active_sockets (snd (receive_data w topic inputs st)) = without w (active_sockets st).
Proof.
  revert st. induction inputs as [ | [f | k] rest IH]; intros st.
  - rewrite receive_data_nil. destruct (closed_kind w st); [ reflexivity | discriminate ].
  - rewrite receive_data_frame. destruct (json_loads f) as [d | e].
    + destruct (publish_error d); [ discriminate | ].
      apply (IH (emit (EvPublish topic d) st)).
    + destruct (relay_handles e); [ reflexivity | discriminate ].
  - rewrite receive_data_closed. reflexivity.
Qed.

(** X3: [wsg] leaves the connection it was called with in
    [self.wsocket], whatever becomes of the handshake and of the relay:
    the attribute holds the connection of the latest call. *)
Theorem X3_wsg_leaves_its_connection_in_wsocket
        (w : conn) (inputs : list recv_event) (st : state) :
  wsocket (snd (wsg w inputs st)) = Some w.
Proof.
  unfold wsg, bind.
  destruct inputs as [ | [f | k] rest].
  - rewrite handshake_nil. cbv zeta.
    destruct (closed_kind w st) as [[ | ] | ]; reflexivity.
  - rewrite handshake_frame. cbv zeta.
    destruct (json_loads f) as [data | e]; [ | reflexivity ].
    destruct (json_getitem data "id") as [[ | | | | id_string | | ] | []];
      try reflexivity.
    rewrite relay_keeps_wsocket. reflexivity.
  - rewrite handshake_closed. reflexivity.
Qed.

(** X4: a connection that no entry held before, and whose [wsg]
    returns, leaves the table as [wsg] found it: the entry appended by
    the handshake is the one removed by the relay, and the entries of
    the other connections keep their places. *)
Theorem X4_wsg_that_returns_restores_the_table
        (w : conn) (inputs : list recv_event) (st : state) :
  entries_of w (active_sockets st) = [] ->
  fst (wsg w inputs st) = Ret tt ->
  active_sockets (snd (wsg w inputs st)) = active_sockets st.
Proof.
  intros Hfresh. unfold wsg, bind.
  pose proof (handshake_table w inputs st) as Htable.
  destruct (handshake w inputs st) as [[[id_string rest] | e | ] st1]; cbn [fst snd];
    try discriminate.
  intros Hret.
  rewrite (relay_return_table _ _ _ _ Hret), Htable.
  rewrite without_app, without_own_entry, app_nil_r.
  apply without_nothing_held, Hfresh.
Qed.

End RelayFacts.

(** ** The handshake: bus, console and websockets *)

Section HandshakeFacts.

Context {lib : Library}.

(** X5: the handshake subscribes to the derived topic exactly when it
    succeeds, once, and before the entry is in the table; a failed
    handshake subscribes to nothing. *)
Theorem X5_handshake_subscribes_exactly_on_success
        (w : conn) (inputs : list recv_event) (st : state) :
  match handshake w inputs st with
  | (Ret (id_string, _), st') =>
      subscriptions (trace st') =
      (subscriptions (trace st) ++ [subscriber_string id_string])%list
  | (_, st') => subscriptions (trace st') = subscriptions (trace st)
  end.
Proof.
  assert (Hbegin : subscriptions (trace st ++ [EvBegin])%list = subscriptions (trace st)).
  { rewrite subscriptions_app. apply app_nil_r. }
  destruct inputs as [ | [f | k] rest].
  - rewrite handshake_nil. cbv zeta.
    destruct (closed_kind w st) as [[ | ] | ]; exact Hbegin.
  - rewrite handshake_frame. cbv zeta.
    destruct (json_loads f) as [data | e]; [ | exact Hbegin ].
    destruct (json_getitem data "id") as [[ | | | | id_string | | ] | []];
      try exact Hbegin.
    + cbn [trace emit with_wsocket with_active_sockets].
      rewrite subscriptions_app, Hbegin. reflexivity.
    + cbn [trace emit with_wsocket]. rewrite subscriptions_app, Hbegin. apply app_nil_r.
  - rewrite handshake_closed. destruct k; exact Hbegin.
Qed.

(** X6: what a first frame that parses, but is no handshake, does: a
    value that is not an object raises TypeError, an object whose [id]
    is not a string raises AttributeError, both without a word on the
    console; an object without [id] raises KeyError after the message
    'Client did not provide an ID string' is printed.  In each case
    [begin()] has been awaited and nothing else was done. *)
Theorem X6_first_frame_that_is_no_handshake
        (w : conn) (f : frame) (rest : list recv_event) (data : json) (st : state) :
  json_loads f = Ok data ->
  match data with
  | JObj d =>
      match Dict.get String.eqb "id" d with
      | None =>
          handshake w (RecvFrame f :: rest) st =
          (Raise KeyError,
           emit (EvPrint "Client did not provide an ID string")
                (emit EvBegin (with_wsocket (Some w) st)))
      | Some (JStr id_string) =>
          fst (handshake w (RecvFrame f :: rest) st) = Ret (id_string, rest)
      | Some _ =>
          handshake w (RecvFrame f :: rest) st =
          (Raise AttributeError, emit EvBegin (with_wsocket (Some w) st))
      end
  | _ =>
      handshake w (RecvFrame f :: rest) st =
      (Raise TypeError, emit EvBegin (with_wsocket (Some w) st))
  end.
Proof.
  intros Hloads. rewrite handshake_frame, Hloads. cbv zeta.
  destruct data as [ | b | z | x | s | l | d ]; try reflexivity.
  unfold json_getitem, Dict.getitem.
  destruct (Dict.get String.eqb "id" d) as [[ | | | | id_string | | ] | ]; reflexivity.
Qed.

(** X7: [wsg] calls neither [send()] nor [close()] on any websocket,
    however the handshake and the relay end; a connection whose
    handshake fails is not closed by the gateway's code. *)
Theorem X7_wsg_sends_and_closes_nothing
        (w : conn) (inputs : list recv_event) (st : state) :
  sends (trace (snd (wsg w inputs st))) = sends (trace st) /\
  closes (trace (snd (wsg w inputs st))) = closes (trace st).
Proof.
  assert (Hs : forall evs, sends evs = [] ->
                           sends (trace st ++ evs)%list = sends (trace st)).
  { intros evs H. rewrite sends_app, H. apply app_nil_r. }
  assert (Hc : forall evs, closes evs = [] ->
                           closes (trace st ++ evs)%list = closes (trace st)).
  { intros evs H. rewrite closes_app, H. apply app_nil_r. }
  unfold wsg, bind.
  destruct inputs as [ | [f | k] rest].
  - rewrite handshake_nil. cbv zeta.
    destruct (closed_kind w st) as [[ | ] | ]; cbn [snd trace emit with_wsocket];
      (split; [ apply Hs | apply Hc ]); reflexivity.
  - rewrite handshake_frame. cbv zeta.
    destruct (json_loads f) as [data | e];
      [ | cbn [snd trace emit with_wsocket]; split; [ apply Hs | apply Hc ]; reflexivity ].
    destruct (json_getitem data "id") as [[ | | | | id_string | | ] | []];
      try (cbn [snd trace emit with_wsocket]; rewrite <- ?app_assoc;
           split; [ apply Hs | apply Hc ]; reflexivity).
    rewrite relay_trace. cbn [trace emit with_wsocket with_active_sockets].
    rewrite <- !app_assoc. split.
    + apply Hs. cbn. apply sends_map_EvPublish.
    + apply Hc. cbn. apply closes_map_EvPublish.
  - rewrite handshake_closed. cbn [snd trace emit with_wsocket with_closed].
    split; [ apply Hs | apply Hc ]; reflexivity.
Qed.

End HandshakeFacts.

(** ** The derived topic *)

Lemma startswith_to_inv (c : ascii) (rest : string) :
  PyStr.startswith "to" (String c rest) = true ->
  c = "t"%char /\ exists rest', rest = String "o" rest'.
Proof.
  cbn [PyStr.startswith].
  destruct (Ascii.eqb_spec "t" c) as [<- | _]; [ | discriminate ].
  destruct rest as [ | c' rest']; [ discriminate | ].
  destruct (Ascii.eqb_spec "o" c') as [<- | _]; [ | discriminate ].
  intros _. split; [ reflexivity | exists rest'; reflexivity ].
Qed.

(** The derived topic begins with "o" only if the id does. *)
Lemma subscriber_string_head_o (s : string) :
  PyStr.startswith "o" (subscriber_string s) = PyStr.startswith "o" s.
Proof.
  destruct s as [ | c rest]; [ reflexivity | ].
  destruct (PyStr.startswith "to" (String c rest)) eqn:E.
  - apply startswith_to_inv in E as [-> [rest' ->]]. reflexivity.
  - rewrite subscriber_string_other by exact E. reflexivity.
Qed.

Lemma subscriber_string_free_of_to_upto (n : nat) :
  forall s, (String.length s <= n)%nat ->
            PyStr.contains "to" (subscriber_string s) = false.
Proof.
  induction n as [ | n IH]; intros s Hlen.
  - destruct s; [ reflexivity | cbn in Hlen; lia ].
  - destruct s as [ | c rest]; [ reflexivity | ].
    destruct (PyStr.startswith "to" (String c rest)) eqn:E.
    + apply startswith_to_inv in E as [-> [rest' ->]].
      rewrite subscriber_string_to.
      change (PyStr.contains "to" ("from" ++ subscriber_string rest'))
        with (PyStr.contains "to" (subscriber_string rest')).
      apply IH. cbn in Hlen. lia.
    + rewrite subscriber_string_other by exact E.
      cbn [PyStr.contains]. rewrite IH by (cbn in Hlen; lia).
      rewrite orb_false_r.
      change (PyStr.startswith "to" (String c (subscriber_string rest)))
        with (Ascii.eqb "t" c && PyStr.startswith "o" (subscriber_string rest)).
      rewrite subscriber_string_head_o. exact E.
Qed.

(** X8: the derived subscribe topic never contains "to", wherever the
    id had it ("to_motor" gives "from_mofromr"), and deriving again
    changes nothing; so an id and the topic derived from it have the
    same derived topic, and two different ids can share one. *)
Theorem X8_derived_topic_is_free_of_to (s : string) :
  PyStr.contains "to" (subscriber_string s) = false /\
  subscriber_string (subscriber_string s) = subscriber_string s.
Proof.
  assert (H : PyStr.contains "to" (subscriber_string s) = false).
  { apply (subscriber_string_free_of_to_upto (String.length s)). lia. }
  split; [ exact H | ].
  apply subscriber_string_without_to, H.
Qed.

Example subscriber_string_motor : subscriber_string "to_motor" = "from_mofromr".
Proof. reflexivity. Qed.

(** ** The router: what it touches, and deliveries cut short *)

Lemma socket_calls_only_refl (st : state) : socket_calls_only st st.
Proof.
  repeat split. exists []. split; [ symmetry; apply app_nil_r | reflexivity ].
Qed.

Lemma socket_calls_only_trans (st1 st2 st3 : state) :
  socket_calls_only st1 st2 -> socket_calls_only st2 st3 -> socket_calls_only st1 st3.
Proof.
  intros (Ha & Hw & evs & Ht & Hall) (Ha' & Hw' & evs' & Ht' & Hall').
  repeat split; try congruence.
  exists (evs ++ evs')%list. split.
  - rewrite Ht', Ht, app_assoc. reflexivity.
  - rewrite forallb_app, Hall, Hall'. reflexivity.
Qed.

Lemma sends_only_socket_calls (data : string) (st st' : state) :
  sends_only data st st' -> socket_calls_only st st'.
Proof.
  intros (Ha & Hw & _ & ws & Ht). repeat split; try assumption.
  exists (map (fun w => EvSend w data) ws). split; [ exact Ht | ].
  clear Ht. induction ws as [ | w ws IH]; [ reflexivity | exact IH ].
Qed.

Lemma socket_calls_leave_the_bus (evs : list event) :
  forallb is_socket_call evs = true ->
  publishes evs = [] /\ subscriptions evs = [].
Proof.
  induction evs as [ | ev evs IH]; [ split; reflexivity | ].
  cbn [forallb]. intros H. apply andb_true_iff in H as [Hev Hevs].
  destruct ev; try discriminate; exact (IH Hevs).
Qed.

Section RouterFacts.

Context {lib : Library}.

Lemma close_if_bound_socket_calls (topic : string) (socket : entry) (st : state) :
  socket_calls_only st (snd (close_if_bound topic socket st)).
Proof.
  unfold close_if_bound.
  destruct (Dict.mem key_eqb (KStr topic) socket); [ | apply socket_calls_only_refl ].
  unfold bind.
  destruct (Dict.getitem key_eqb (KStr topic) socket) as [[s | w] | e]; cbn;
    try apply socket_calls_only_refl.
  repeat split. exists [EvClose w]. split; reflexivity.
Qed.

Lemma panic_loop_socket_calls (topic : string) (table : list entry) (st : state) :
  socket_calls_only st (snd (for_each (close_if_bound topic) table st)).
Proof.
  revert st. induction table as [ | socket table IH]; intros st.
  - apply socket_calls_only_refl.
  - cbn [for_each]. unfold bind.
    pose proof (close_if_bound_socket_calls topic socket st) as H.
    destruct (close_if_bound topic socket st) as [[[] | e | ] st1]; cbn [snd] in *;
      try exact H.
    eapply socket_calls_only_trans; [ exact H | apply IH ].
Qed.

Lemma panic_step_socket_calls (topic : string) (payload : dict) (st : state) :
  socket_calls_only st (snd (panic_step topic payload st)).
Proof.
  unfold panic_step, bind, gets.
  destruct (Dict.getitem String.eqb "report" payload) as [report | e]; cbn [lift ret raise];
    [ | apply socket_calls_only_refl ].
  destruct (json_eq_str report "panic"); [ | apply socket_calls_only_refl ].
  apply panic_loop_socket_calls.
Qed.

(** X9: whatever the table, the payload and the outcome, the router
    changes neither [active_sockets] nor [wsocket], and all it calls is
    [close()] and [send()] on websockets: it publishes nothing to the
    bus and subscribes to nothing. *)
Theorem X9_router_only_calls_websockets
        (topic : string) (payload : dict) (st : state) :
  socket_calls_only st (snd (incoming_message_processing topic payload st)) /\
  publishes (trace (snd (incoming_message_processing topic payload st))) =
    publishes (trace st) /\
  subscriptions (trace (snd (incoming_message_processing topic payload st))) =
    subscriptions (trace st).
Proof.
  assert (H : socket_calls_only st
                (snd (incoming_message_processing topic payload st))).
  { unfold incoming_message_processing, bind at 1.
    pose proof (panic_step_socket_calls topic payload st) as H1.
    destruct (panic_step topic payload st) as [[[] | e | ] st1]; cbn [snd] in *;
      try exact H1.
    unfold bind. rewrite timestamp_step_pure.
    destruct (Dict.get String.eqb "timestamp" payload) as [v | ].
    - destruct (fromtimestamp_strftime v) as [s | e]; [ | exact H1 ].
      eapply socket_calls_only_trans; [ exact H1 | ].
      eapply sends_only_socket_calls, fanout_step_sends_only.
    - eapply socket_calls_only_trans; [ exact H1 | ].
      eapply sends_only_socket_calls, fanout_step_sends_only. }
  split; [ exact H | ].
  destruct H as (_ & _ & evs & Ht & Hall).
  destruct (socket_calls_leave_the_bus evs Hall) as [Hp Hs].
  rewrite Ht, publishes_app, subscriptions_app, Hp, Hs, !app_nil_r.
  split; reflexivity.
Qed.

Lemma router_without_panic (topic : string) (payload : dict) (report : json)
      (st : state) :
  Dict.get String.eqb "report" payload = Some report ->
  json_eq_str report "panic" = false ->
  incoming_message_processing topic payload st =
  (payload' <- timestamp_step payload ;; fanout_step topic payload') st.
Proof.
  intros Hreport Hother.
  unfold incoming_message_processing. unfold bind at 1.
  unfold panic_step, Dict.getitem. rewrite Hreport.
  unfold bind at 1. cbn [lift ret]. rewrite Hother. reflexivity.
Qed.

(** The fan-out stops at the first bound session whose connection is
    closed. *)
Lemma fanout_loop_stops (topic data : string) (sessions : list (conn * string))
      (before after : list (conn * string)) (w : conn) (sub : string)
      (k : close_kind) (st : state) :
  bound_to topic sessions = (before ++ (w, sub) :: after)%list ->
  (forall x, In x (map fst before) -> is_open x st = true) ->
  closed_kind w st = Some k ->
  for_each (send_if_bound topic data) (table_of sessions) st =
  (Raise (closed_exn k), send_all data (map fst before) st).
Proof.
  revert before st. induction sessions as [ | s sessions IH]; intros before st Hb Hopen Hk.
  - destruct before; discriminate Hb.
  - cbn [table_of map for_each]. unfold bind at 1.
    rewrite send_if_bound_entry. fold (table_of sessions).
    cbn [bound_to filter] in Hb.
    destruct (String.eqb (snd s) topic).
    + destruct before as [ | b before].
      * cbn [app] in Hb. injection Hb as Hs _. subst s. cbn [fst].
        unfold send. rewrite Hk. reflexivity.
      * cbn [app] in Hb. injection Hb as Hs Hb. subst s.
        rewrite send_open by (apply Hopen; left; reflexivity).
        cbn [map send_all fold_left].
        apply (IH before (emit (EvSend (fst b) data) st) Hb).
        -- intros x Hx. rewrite is_open_emit. apply Hopen. right. exact Hx.
        -- exact Hk.
    + apply IH; assumption.
Qed.

(** X10: the fan-out is cut short by a closed connection: when the
    connection of a session bound to the topic is closed while its entry
    is in the table, the sessions bound before it in the table get the
    frame, [ConnectionClosed] leaves the router, and the sessions bound
    after it get nothing. *)
Theorem X10_fanout_stops_at_the_first_closed_connection
        (sessions before after : list (conn * string)) (w : conn) (sub : string)
        (k : close_kind) (topic : string) (payload payload' : dict)
        (report : json) (st : state) :
  active_sockets st = table_of sessions ->
  Dict.get String.eqb "report" payload = Some report ->
  json_eq_str report "panic" = false ->
  timestamp_step payload st = (Ret payload', st) ->
  bound_to topic sessions = (before ++ (w, sub) :: after)%list ->
  (forall x, In x (map fst before) -> is_open x st = true) ->
  closed_kind w st = Some k ->
  incoming_message_processing topic payload st =
    (Raise (closed_exn k),
     send_all (json_dumps (JObj payload')) (map fst before) st) /\
  sends (trace (snd (incoming_message_processing topic payload st))) =
    (sends (trace st) ++
     map (fun s => (fst s, json_dumps (JObj payload'))) before)%list.
Proof.
  intros Htable Hreport Hother Hts Hb Hopen Hk.
  assert (Hrun : incoming_message_processing topic payload st =
                 (Raise (closed_exn k),
                  send_all (json_dumps (JObj payload')) (map fst before) st)).
  { rewrite (router_without_panic topic payload report st Hreport Hother).
    unfold bind at 1. rewrite Hts.
    unfold fanout_step, bind, gets. rewrite Htable.
    apply (fanout_loop_stops topic _ sessions before after w sub k st Hb Hopen Hk). }
  split; [ exact Hrun | ].
  rewrite Hrun. cbn [snd].
  rewrite send_all_trace, sends_app, sends_map_EvSend, map_map. reflexivity.
Qed.

(** X11: registration and routing compose: after a successful
    handshake of a connection with id [id], a bus message on the topic
    derived from [id] (its [report] not "panic", its timestamp absent or
    convertible, the connections bound to that topic open) is sent to
    the sessions that were bound to the topic and then to the new
    connection. *)
Theorem X11_a_registered_connection_receives_its_topic
        (w : conn) (f : frame) (rest : list recv_event) (d : dict) (id : string)
        (sessions : list (conn * string)) (payload payload' : dict)
        (report : json) (st : state) :
  json_loads f = Ok (JObj d) ->
  Dict.get String.eqb "id" d = Some (JStr id) ->
  active_sockets st = table_of sessions ->
  Dict.get String.eqb "report" payload = Some report ->
  json_eq_str report "panic" = false ->
  fst (timestamp_step payload st) = Ret payload' ->
  (forall x, In x (map fst (bound_to (subscriber_string id) sessions)) ->
             is_open x st = true) ->
  is_open w st = true ->
  incoming_message_processing (subscriber_string id) payload
    (snd (handshake w (RecvFrame f :: rest) st)) =
  (Ret tt,
   send_all (json_dumps (JObj payload'))
            (map fst (bound_to (subscriber_string id) sessions) ++ [w])%list
            (snd (handshake w (RecvFrame f :: rest) st))).
Proof.
  intros Hloads Hid Htable Hreport Hother Hts Hopen Hw.
  rewrite handshake_frame, Hloads. cbv zeta.
  unfold json_getitem, Dict.getitem. rewrite Hid. cbn [snd].
  set (sub := subscriber_string id) in *.
  set (st1 := with_active_sockets _ _).
  rewrite (router_without_panic sub payload report st1 Hreport Hother).
  unfold bind at 1. rewrite timestamp_step_pure.
  rewrite timestamp_step_pure in Hts. cbn [fst] in Hts. rewrite Hts.
  unfold fanout_step, bind, gets.
  assert (Ht1 : active_sockets st1 = table_of (sessions ++ [(w, sub)])%list).
  { unfold st1. cbn [active_sockets with_active_sockets]. rewrite Htable.
    unfold table_of. rewrite map_app. reflexivity. }
  assert (Hbound : bound_to sub (sessions ++ [(w, sub)])%list =
                   (bound_to sub sessions ++ [(w, sub)])%list).
  { unfold bound_to. rewrite filter_app. cbn [filter snd].
    rewrite String.eqb_refl. reflexivity. }
  rewrite Ht1, fanout_loop_open.
  - rewrite Hbound, map_app. reflexivity.
  - rewrite Hbound, map_app. intros x Hx.
    change (is_open x st1) with (is_open x st).
    apply in_app_or in Hx as [Hx | [<- | []]]; [ apply Hopen, Hx | exact Hw ].
Qed.

(** X12: the normalization of Step 2 cannot be repeated: on a payload
    that it has rewritten, the [timestamp] is now a string and a second
    normalization raises TypeError; a payload without [timestamp] is
    returned as it is every time. *)
Theorem X12_timestamp_normalization_is_not_repeatable
        (payload payload' : dict) (st : state) :
  timestamp_step payload st = (Ret payload', st) ->
  timestamp_step payload' st =
  if Dict.mem String.eqb "timestamp" payload
  then (Raise TypeError, st)
  else (Ret payload', st).
Proof.
  rewrite !timestamp_step_pure. unfold Dict.mem.
  destruct (Dict.get String.eqb "timestamp" payload) as [v | ] eqn:Hget.
  - destruct (fromtimestamp_strftime v) as [s | e]; [ | discriminate ].
    intros H. injection H as <-.
    rewrite get_set. reflexivity.
  - intros H. injection H as <-. rewrite Hget. reflexivity.
Qed.

End RouterFacts.

(** ** Start-up *)

Module StartupFacts.

Import Startup.

Lemma split_nonempty (sep : ascii) (s : string) : split sep s <> [].
Proof.
  destruct s as [ | c rest]; cbn [split]; [ discriminate | ].
  destruct (Ascii.eqb c sep); [ discriminate | ].
  destruct (split sep rest); discriminate.
Qed.

Lemma join_cons (sep x : string) (y : string) (rest : list string) :
  join sep (x :: y :: rest) = x ++ sep ++ join sep (y :: rest).
Proof. reflexivity. Qed.

(** Splitting and joining again gives the string back. *)
Lemma join_split (sep : ascii) (s : string) :
  join (String sep EmptyString) (split sep s) = s.
Proof.
  induction s as [ | c rest IH]; [ reflexivity | ].
  cbn [split]. pose proof (split_nonempty sep rest) as Hne.
  destruct (Ascii.eqb_spec c sep) as [-> | Hc].
  - destruct (split sep rest) as [ | piece pieces]; [ contradiction | ].
    rewrite join_cons, IH. reflexivity.
  - destruct (split sep rest) as [ | piece pieces]; [ contradiction | ].
    rewrite <- IH. destruct pieces; reflexivity.
Qed.

Lemma length_split (sep : ascii) (s : string) :
  List.length (split sep s) = S (count sep s).
Proof.
  induction s as [ | c rest IH]; [ reflexivity | ].
  cbn [split count]. pose proof (split_nonempty sep rest) as Hne.
  destruct (Ascii.eqb c sep).
  - cbn [List.length]. rewrite IH. reflexivity.
  - destruct (split sep rest) as [ | piece pieces]; [ contradiction | ].
    cbn [List.length] in *. exact IH.
Qed.

Lemma split_pieces_free_of_sep (sep : ascii) (s : string) :
  Forall (fun piece => count sep piece = O) (split sep s).
Proof.
  induction s as [ | c rest IH]; [ repeat constructor | ].
  cbn [split]. destruct (Ascii.eqb c sep) eqn:E.
  - constructor; [ reflexivity | exact IH ].
  - destruct (split sep rest) as [ | piece pieces]; [ repeat constructor; cbn; rewrite E; reflexivity | ].
    inversion IH as [ | ? ? Hp Hps]; subst.
    constructor; [ | exact Hps ].
    cbn [count]. rewrite E, Hp. reflexivity.
Qed.

(** X13: with [-m] followed by two or more topics, [ws_gateway] calls
    [split] on the list that the parser returns: AttributeError is
    raised and the gateway is never constructed. *)
Theorem X13_two_or_more_topics_raise_AttributeError
        (lower : string -> string) (args : arguments) (env : environment)
        (l : list string) :
  subscription_list args = TopicList l ->
  (2 <= List.length l)%nat ->
  constructor_call lower args = Err AttributeError /\
  run lower args env = ([], Some (Gateway AttributeError)).
Proof.
  intros Hl Hlen.
  assert (H : constructor_call lower args = Err AttributeError).
  { unfold constructor_call. rewrite Hl. cbn [len split_method].
    destruct (Nat.ltb_spec 1 (List.length l)) as [_ | Hlt]; [ reflexivity | lia ]. }
  split; [ exact H | ]. unfold run. rewrite H. reflexivity.
Qed.

(** X14: a subscription list that is a string of two or more
    characters (the parser's default) is cut at its commas and at
    nothing else: the constructor gets one topic more than there are
    commas, no topic holds a comma, nothing is stripped, and the topics
    joined by commas are the string again; so a topic written after
    ", " begins with a space. *)
Theorem X14_topic_string_is_cut_at_commas_only
        (lower : string -> string) (args : arguments) (s : string) :
  subscription_list args = TopicString s ->
  (2 <= String.length s)%nat ->
  exists c l,
    constructor_call lower args = Ok c /\
    call_subscription_list c = TopicList l /\
    join "," l = s /\
    List.length l = S (count "," s) /\
    Forall (fun topic => count "," topic = O) l.
Proof.
  intros Hs Hlen.
  unfold constructor_call. rewrite Hs. cbn [len split_method].
  destruct (Nat.ltb_spec 1 (String.length s)) as [_ | Hlt]; [ | lia ].
  eexists. exists (split "," s). split; [ reflexivity | ].
  split; [ reflexivity | ].
  split; [ apply join_split | ].
  split; [ apply length_split | apply split_pieces_free_of_sep ].
Qed.

(** The topics of a gateway started without [-m]. *)
Example default_topics :
  exists c, constructor_call (fun s => s) defaults = Ok c /\
  call_subscription_list c =
  TopicList ["from_arduino_gateway"; " from_esp8266_gateway"; " from_rpi_gateway";
             " from_microbit_gatewayfrom_picoboard_gatewayfrom_cpx_gateway"].
Proof. eexists. split; reflexivity. Qed.

(** X15: constructed with an integer [server_ip_port], which is the
    default of the signature, [__init__] raises TypeError at the banner
    ([str + int]): the exception is not one the [try] handles, so it
    leaves the constructor, after [websockets.serve] was called and
    before the server is started; the loop is neither stopped nor
    closed. *)
Theorem X15_integer_port_raises_TypeError_at_the_banner
        (c : call) (env : environment) (n : Z) :
  call_server_ip_port c = PortInt n ->
  base_raises env = None ->
  init c env =
    (((if call_log c then [SetUpLogging] else []) ++
      [BaseInit; Serve (PortInt n)])%list,
     Some (Gateway TypeError)) /\
  ~ In RunUntilComplete (fst (init c env)) /\
  ~ In LoopClose (fst (init c env)).
Proof.
  intros Hport Hbase.
  assert (H : init c env =
              (((if call_log c then [SetUpLogging] else []) ++
                [BaseInit; Serve (PortInt n)])%list,
               Some (Gateway TypeError))).
  { unfold init, init_try. rewrite Hbase, Hport. reflexivity. }
  split; [ exact H | ]. rewrite H. cbn [fst].
  destruct (call_log c); cbn; split; intros Hin;
    repeat (destruct Hin as [Hin | Hin]; [ discriminate Hin | ]); exact Hin.
Qed.

(** X16: an exception of the classes ConnectionClosed, RuntimeError
    and KeyboardInterrupt raised while the server is started or runs
    never leaves the constructor: an exception that does leave it comes
    from the base class or is of another class (OSError for a port in
    use, say), and then the loop was neither stopped nor closed; the
    loop is closed only when the constructor returns. *)
Theorem X16_handled_exceptions_never_leave_the_constructor
        (c : call) (env : environment) (f : failure) :
  snd (init c env) = Some f ->
  (base_raises env = Some f \/ init_handles f = false) /\
  ~ In LoopStop (fst (init c env)) /\
  ~ In LoopClose (fst (init c env)).
Proof.
  unfold init, init_try.
  destruct (base_raises env) as [fb | ].
  - cbn [snd fst]. intros H. injection H as ->.
    split; [ left; reflexivity | ].
    destruct (call_log c); cbn; split; intros Hin;
      repeat (destruct Hin as [Hin | Hin]; [ discriminate Hin | ]); exact Hin.
  - destruct (call_server_ip_port c) as [n | s].
    + cbn. intros H. injection H as <-.
      split; [ right; reflexivity | ].
      destruct (call_log c); cbn; split; intros Hin;
        repeat (destruct Hin as [Hin | Hin]; [ discriminate Hin | ]); exact Hin.
    + destruct (start_raises env) as [fs | ].
      * destruct (init_handles fs) eqn:E; cbn [snd fst]; [ discriminate | ].
        intros H. injection H as <-.
        split; [ right; exact E | ].
        destruct (call_log c); cbn; split; intros Hin;
          repeat (destruct Hin as [Hin | Hin]; [ discriminate Hin | ]); exact Hin.
      * destruct (forever_raises env) as [ff | ]; [ | discriminate ].
        destruct (init_handles ff) eqn:E; cbn [snd fst]; [ discriminate | ].
        intros H. injection H as <-.
        split; [ right; exact E | ].
        destruct (call_log c); cbn; split; intros Hin;
          repeat (destruct Hin as [Hin | Hin]; [ discriminate Hin | ]); exact Hin.
Qed.

(** X17: started from the command line, the gateway never sets up
    logging and never logs an exception, whatever is given after [-l]:
    [ws_gateway] computes [log] and passes it to nobody, so the run is
    the same for every value of the option; and the port it passes is
    always a string, so the banner is printed whenever the base class
    is initialised. *)
Theorem X17_the_log_option_has_no_effect
        (lower : string -> string) (args : arguments) (env : environment)
        (other : string) :
  run lower
      (mkArguments (back_plane_ip_address args) (subscription_list args)
                   (server_ip_port args) other (process_name args)
                   (publisher_port args) (subscriber_port args)) env =
    run lower args env /\
  ~ In SetUpLogging (fst (run lower args env)) /\
  ~ In LogException (fst (run lower args env)) /\
  match constructor_call lower args, base_raises env with
  | Ok _, None =>
      In (Banner ("WebSocket using: " ++ base_address env ++ ":" ++ server_ip_port args))
         (fst (run lower args env))
  | _, _ => True
  end.
Proof.
  split; [ reflexivity | ].
  unfold run, constructor_call.
  destruct (if (1 <? len (subscription_list args))%nat
            then split_method (subscription_list args)
            else Ok (subscription_list args)) as [t | e].
  - unfold init, init_try. cbn [call_log call_server_ip_port].
    destruct (base_raises env) as [fb | ].
    + cbn. repeat split; intros Hin;
        repeat (destruct Hin as [Hin | Hin]; [ discriminate Hin | ]); exact Hin.
    + destruct (start_raises env) as [fs | ].
      * destruct (init_handles fs); cbn;
          (split; [ | split ]);
          try (intros Hin;
               repeat (destruct Hin as [Hin | Hin]; [ discriminate Hin | ]); exact Hin);
          right; right; left; reflexivity.
      * destruct (forever_raises env) as [ff | ]; [ destruct (init_handles ff) | ]; cbn;
          (split; [ | split ]);
          try (intros Hin;
               repeat (destruct Hin as [Hin | Hin]; [ discriminate Hin | ]); exact Hin);
          right; right; left; reflexivity.
  - cbn. repeat split; intros [].
Qed.

End StartupFacts.

(** ** The further properties at concrete inputs *)

Lemma X4_wsg_round_trip_witness :
  active_sockets
    (snd (wsg (lib := Sample.library) 7%nat
              [RecvFrame (Sample.id_frame "to_arduino"); RecvFrame (Text "{}");
               RecvClosed CloseOK] Sample.gateway)) =
  active_sockets Sample.gateway.
Proof.
  apply (X4_wsg_that_returns_restores_the_table (lib := Sample.library)); reflexivity.
Defined.

Lemma X6_first_frame_witness :
  handshake (lib := Sample.library) 7%nat [RecvFrame (Text "[]")] Sample.gateway =
  (Raise TypeError, emit EvBegin (with_wsocket (Some 7%nat) Sample.gateway)).
Proof.
  exact (X6_first_frame_that_is_no_handshake (lib := Sample.library)
           7%nat (Text "[]") [] (JList []) Sample.gateway eq_refl).
Defined.

Lemma X10_fanout_stops_witness :
  sends (trace (snd (incoming_message_processing (lib := Sample.library)
                       "from_arduino" Sample.report_payload
                       (mkState (table_of Sample.sessions) (Some 2%nat)
                                [(1%nat, CloseError)] [])))) =
  [(0%nat, json_dumps (Library := Sample.library) (JObj Sample.normalized_payload))].
Proof.
  refine (proj2 (X10_fanout_stops_at_the_first_closed_connection
                   (lib := Sample.library) Sample.sessions
                   [(0%nat, "from_arduino")] [] 1%nat "from_arduino" CloseError
                   "from_arduino" Sample.report_payload Sample.normalized_payload
                   (JStr "digital_input")
                   (mkState (table_of Sample.sessions) (Some 2%nat)
                            [(1%nat, CloseError)] [])
                   eq_refl eq_refl eq_refl eq_refl eq_refl _ eq_refl)).
  intros x [<- | []]. reflexivity.
Defined.

Lemma X11_registered_connection_witness :
  incoming_message_processing (lib := Sample.library)
    "from_arduino" Sample.report_payload
    (snd (handshake (lib := Sample.library) 7%nat
            [RecvFrame (Sample.id_frame "to_arduino")] Sample.gateway)) =
  (Ret tt,
   send_all (json_dumps (Library := Sample.library) (JObj Sample.normalized_payload))
            [0%nat; 1%nat; 7%nat]
            (snd (handshake (lib := Sample.library) 7%nat
                    [RecvFrame (Sample.id_frame "to_arduino")] Sample.gateway))).
Proof.
  exact (X11_a_registered_connection_receives_its_topic
           (lib := Sample.library) 7%nat (Sample.id_frame "to_arduino") []
           [("id", JStr "to_arduino")] "to_arduino" Sample.sessions
           Sample.report_payload Sample.normalized_payload (JStr "digital_input")
           Sample.gateway eq_refl eq_refl eq_refl eq_refl eq_refl eq_refl
           (fun x _ => eq_refl) eq_refl).
Defined.

Lemma X12_second_normalization_witness :
  timestamp_step (lib := Sample.library) Sample.normalized_payload Sample.gateway =
  (Raise TypeError, Sample.gateway).
Proof.
  exact (X12_timestamp_normalization_is_not_repeatable
           (lib := Sample.library) Sample.report_payload Sample.normalized_payload
           Sample.gateway eq_refl).
Defined.

Lemma X13_two_topics_witness :
  Startup.constructor_call (fun s => s)
    (Startup.mkArguments "None"
       (Startup.TopicList ["from_arduino_gateway"; "from_rpi_gateway"])
       "9000" "False" "WebSocket Gateway" "43124" "43125") =
  Err AttributeError.
Proof.
  refine (proj1 (StartupFacts.X13_two_or_more_topics_raise_AttributeError
                   (fun s => s)
                   (Startup.mkArguments "None"
                      (Startup.TopicList ["from_arduino_gateway"; "from_rpi_gateway"])
                      "9000" "False" "WebSocket Gateway" "43124" "43125")
                   (Startup.mkEnvironment "192.168.2.100" None None None)
                   ["from_arduino_gateway"; "from_rpi_gateway"] eq_refl _)).
  cbn. lia.
Defined.

Lemma X14_default_topics_witness :
  exists c l,
    Startup.constructor_call (fun s => s) Startup.defaults = Ok c /\
    Startup.call_subscription_list c = Startup.TopicList l /\
    Startup.join "," l =
      "from_arduino_gateway, from_esp8266_gateway, from_rpi_gateway, from_microbit_gatewayfrom_picoboard_gatewayfrom_cpx_gateway" /\
    List.length l = 4%nat /\
    Forall (fun topic => Startup.count "," topic = O) l.
Proof.
  refine (StartupFacts.X14_topic_string_is_cut_at_commas_only
            (fun s => s) Startup.defaults _ eq_refl _).
  cbn. lia.
Defined.

Lemma X15_integer_port_witness :
  Startup.init
    (Startup.mkCall (Startup.TopicList ["from_arduino_gateway"]) None
                    "43125" "43124" "WebSocketGateway" (Startup.PortInt 9000) false)
    (Startup.mkEnvironment "192.168.2.100" None None None) =
  ([Startup.BaseInit; Startup.Serve (Startup.PortInt 9000)],
   Some (Startup.Gateway TypeError)).
Proof.
  exact (proj1 (StartupFacts.X15_integer_port_raises_TypeError_at_the_banner
                  (Startup.mkCall (Startup.TopicList ["from_arduino_gateway"]) None
                                  "43125" "43124" "WebSocketGateway"
                                  (Startup.PortInt 9000) false)
                  (Startup.mkEnvironment "192.168.2.100" None None None)
                  9000 eq_refl eq_refl)).
Defined.

Lemma X16_port_in_use_witness :
  Startup.init_handles Startup.OSError = false /\
  ~ In Startup.LoopClose
       (fst (Startup.init
               (Startup.mkCall (Startup.TopicList ["from_arduino_gateway"]) None
                               "43125" "43124" "WebSocketGateway"
                               (Startup.PortStr "9000") true)
               (Startup.mkEnvironment "192.168.2.100" None
                                      (Some Startup.OSError) None))).
Proof.
  split; [ reflexivity | ].
  exact (proj2 (proj2 (StartupFacts.X16_handled_exceptions_never_leave_the_constructor
                         (Startup.mkCall (Startup.TopicList ["from_arduino_gateway"]) None
                                         "43125" "43124" "WebSocketGateway"
                                         (Startup.PortStr "9000") true)
                         (Startup.mkEnvironment "192.168.2.100" None
                                                (Some Startup.OSError) None)
                         Startup.OSError eq_refl))).
Defined.

(** A constructor that meets KeyboardInterrupt in [run_forever], with
    logging on. *)
Example init_keyboard_interrupt :
  Startup.init
    (Startup.mkCall (Startup.TopicList ["from_arduino_gateway"]) None
                    "43125" "43124" "WebSocketGateway" (Startup.PortStr "9000") true)
    (Startup.mkEnvironment "192.168.2.100" None None (Some Startup.KeyboardInterrupt)) =
  ([Startup.SetUpLogging; Startup.BaseInit; Startup.Serve (Startup.PortStr "9000");
    Startup.Banner "WebSocket using: 192.168.2.100:9000";
    Startup.RunUntilComplete; Startup.CreateWakeupTask; Startup.RunForever;
    Startup.LogException; Startup.LoopStop; Startup.LoopClose],
   None).
Proof. reflexivity. Qed.

(** A frame that [json.loads] takes and msgpack does not: the relay
    ends with OverflowError, the frame after it is not published and
    the entry stays. *)
Example relay_integer_beyond_64_bits :
  receive_data (lib := Sample.library) 0%nat "to_arduino"
    [RecvFrame (Text "18446744073709551616"); RecvFrame (Text "7")] Sample.gateway =
    (Raise OverflowError, Sample.gateway) /\
  relayed (lib := Sample.library)
    [RecvFrame (Text "18446744073709551616"); RecvFrame (Text "7")] = [] /\
  relayed (lib := Sample.library)
    [RecvFrame (Text "7"); RecvFrame (Text "18446744073709551616")] = [JInt 7].
Proof. repeat split. Qed.
